(** * PyXRF: the File IO view, the mask window and the batch entry point

    A shallow embedding of [pyxrf/view/fileio.enaml] (the handlers of
    [FileView] and [MaskView]) and of the calls made in
    [examples/Batch_mode_fit.ipynb].

    The view is glue code: every handler reads and writes attributes of the
    model objects ([io_model], [param_model], [plot_model], [fit_model],
    [setting_model]) and of its own widgets, calls a few model methods, and
    opens dialogs.  The model classes live in [pyxrf/model], whose code the
    view only calls; their methods are therefore parameters of the
    development (section variables), while everything the view itself does is
    written out. *)

From Stdlib Require Import ZArith List Bool Ascii String Lia.
From stdpp Require Import base option list gmap strings pretty.

Local Open Scope string_scope.
Local Open Scope Z_scope.
Local Open Scope list_scope.

(** ** Strings *)

Module Str.

(** The double quote and the line feed, as one-character strings. *)
Definition dquote : string := String (ascii_of_nat 34) EmptyString.
Definition nl : string := String (ascii_of_nat 10) EmptyString.

(** Truth value of a Python string or list: empty is false. *)
Definition truthy (s : string) : bool :=
  match s with EmptyString => false | String _ _ => true end.

Definition nonempty {A} (l : list A) : bool :=
  match l with [] => false | _ :: _ => true end.

(** [p[:i], p[i:]] for [i = p.rfind(c) + 1]: the second component has no
    [c]; the first is empty or ends with [c]. *)
Fixpoint rpartition (c : ascii) (p : string) : string * string :=
  match p with
  | EmptyString => (EmptyString, EmptyString)
  | String a rest =>
      let '(h, t) := rpartition c rest in
      match h with
      | EmptyString =>
          if Ascii.eqb a c then (String a EmptyString, t)
          else (EmptyString, String a t)
      | String _ _ => (String a h, t)
      end
  end.

(** [s == c * len(s)] *)
Fixpoint all_char (c : ascii) (s : string) : bool :=
  match s with
  | EmptyString => true
  | String a rest => Ascii.eqb a c && all_char c rest
  end.

(** [s.rstrip(c)] for a one-character [c]. *)
Fixpoint rstrip (c : ascii) (s : string) : string :=
  match s with
  | EmptyString => EmptyString
  | String a rest =>
      match rstrip c rest with
      | EmptyString => if Ascii.eqb a c then EmptyString else String a EmptyString
      | String _ _ as r => String a r
      end
  end.

(** [s.split(c)[-1]] for a one-character separator [c]: what follows the
    last occurrence of [c], or all of [s] when there is none. *)
Definition last_field (c : ascii) (s : string) : string :=
  snd (rpartition c s).

End Str.

(** ** [os.path.split] (posixpath)

<<
    sep = '/'
    i = p.rfind(sep) + 1
    head, tail = p[:i], p[i:]
    if head and head != sep*len(head):
        head = head.rstrip(sep)
    return head, tail
>> *)

Module OsPath.

Definition sep : ascii := ascii_of_nat 47.

Definition split (p : string) : string * string :=
  let '(head, tail) := Str.rpartition sep p in
  let head :=
    if Str.truthy head && negb (Str.all_char sep head)
    then Str.rstrip sep head else head in
  (head, tail).

End OsPath.

(** ** Data model

    Python objects that several models share are kept in a store and named by
    their identity; an attribute that holds such an object holds its
    identity.  This is how [setting_model.data_sets = io_model.data_sets]
    makes both attributes name one dictionary. *)

Abbreviation loc := positive (only parsing).

(** One data set per detector channel.  [plot_index] controls visibility in
    the spectrum view; [raw_data_shape] stands for [raw_data.shape]. *)
Record DataSet := mkDataSet {
  plot_index : Z;
  raw_data_shape : list Z;
}.

Definition set_plot_index (v : Z) (ds : DataSet) : DataSet :=
  {| plot_index := v; raw_data_shape := raw_data_shape ds |}.

(** The dictionaries [channel name -> data set], by identity.  A location
    that was never written holds the empty dictionary. *)
Abbreviation Store := (gmap positive (gmap string DataSet)) (only parsing).

Definition dict_at (st : Store) (l : loc) : gmap string DataSet :=
  default ∅ (st !! l).

(** [d[ch] = ds] on the dictionary at [l]. *)
Definition store_set (l : loc) (ch : string) (ds : DataSet) (st : Store) : Store :=
  <[l := <[ch := ds]> (dict_at st l)]> st.

(** [io_model]: the attributes the view reads or writes; [private] is the
    rest of the object (window title, scan metadata, raw arrays, ...). *)
Module Io.
Record t {P : Type} := mk {
  working_directory : string;
  file_name : string;
  data_ready : bool;
  runid : Z;
  file_overwrite_existing : bool;
  file_channel_list : list string;
  data_sets : loc;
  incident_energy_available : bool;
  mask_opt : Z;
  mask_name : string;
  p1_row : Z;
  p1_col : Z;
  p2_row : Z;
  p2_col : Z;
  private : P;
}.
Arguments t : clear implicits.
Arguments mk {_}.

Section Setters.
Context {P : Type}.
Implicit Type m : t P.

Definition set_working_directory (v : string) m : t P :=
  let 'mk _ a2 a3 a4 a5 a6 a7 a8 a9 a10 a11 a12 a13 a14 a15 := m in
  mk v a2 a3 a4 a5 a6 a7 a8 a9 a10 a11 a12 a13 a14 a15.
Definition set_data_ready (v : bool) m : t P :=
  let 'mk a1 a2 _ a4 a5 a6 a7 a8 a9 a10 a11 a12 a13 a14 a15 := m in
  mk a1 a2 v a4 a5 a6 a7 a8 a9 a10 a11 a12 a13 a14 a15.
Definition set_runid (v : Z) m : t P :=
  let 'mk a1 a2 a3 _ a5 a6 a7 a8 a9 a10 a11 a12 a13 a14 a15 := m in
  mk a1 a2 a3 v a5 a6 a7 a8 a9 a10 a11 a12 a13 a14 a15.
Definition set_file_overwrite_existing (v : bool) m : t P :=
  let 'mk a1 a2 a3 a4 _ a6 a7 a8 a9 a10 a11 a12 a13 a14 a15 := m in
  mk a1 a2 a3 a4 v a6 a7 a8 a9 a10 a11 a12 a13 a14 a15.
Definition set_mask_opt (v : Z) m : t P :=
  let 'mk a1 a2 a3 a4 a5 a6 a7 a8 _ a10 a11 a12 a13 a14 a15 := m in
  mk a1 a2 a3 a4 a5 a6 a7 a8 v a10 a11 a12 a13 a14 a15.
Definition set_mask_name (v : string) m : t P :=
  let 'mk a1 a2 a3 a4 a5 a6 a7 a8 a9 _ a11 a12 a13 a14 a15 := m in
  mk a1 a2 a3 a4 a5 a6 a7 a8 a9 v a11 a12 a13 a14 a15.
Definition set_p1_row (v : Z) m : t P :=
  let 'mk a1 a2 a3 a4 a5 a6 a7 a8 a9 a10 _ a12 a13 a14 a15 := m in
  mk a1 a2 a3 a4 a5 a6 a7 a8 a9 a10 v a12 a13 a14 a15.
Definition set_p1_col (v : Z) m : t P :=
  let 'mk a1 a2 a3 a4 a5 a6 a7 a8 a9 a10 a11 _ a13 a14 a15 := m in
  mk a1 a2 a3 a4 a5 a6 a7 a8 a9 a10 a11 v a13 a14 a15.
Definition set_p2_row (v : Z) m : t P :=
  let 'mk a1 a2 a3 a4 a5 a6 a7 a8 a9 a10 a11 a12 _ a14 a15 := m in
  mk a1 a2 a3 a4 a5 a6 a7 a8 a9 a10 a11 a12 v a14 a15.
Definition set_p2_col (v : Z) m : t P :=
  let 'mk a1 a2 a3 a4 a5 a6 a7 a8 a9 a10 a11 a12 a13 _ a15 := m in
  mk a1 a2 a3 a4 a5 a6 a7 a8 a9 a10 a11 a12 a13 v a15.
End Setters.
End Io.

(** [param_model]: the view only reads [param_new], a dictionary it hands on
    by identity. *)
Module Param.
Record t := mk { param_new : loc }.
End Param.

(** [plot_model] *)
Module Plot.
Record t {P : Type} := mk {
  parameters : loc;
  data_sets : loc;
  plot_exp_opt : bool;
  show_exp_opt : bool;
  private : P;
}.
Arguments t : clear implicits.
Arguments mk {_}.

Section Setters.
Context {P : Type}.
Implicit Type m : t P.
Definition set_parameters (v : loc) m : t P :=
  let 'mk _ a2 a3 a4 a5 := m in mk v a2 a3 a4 a5.
Definition set_data_sets (v : loc) m : t P :=
  let 'mk a1 _ a3 a4 a5 := m in mk a1 v a3 a4 a5.
Definition set_plot_exp_opt (v : bool) m : t P :=
  let 'mk a1 a2 _ a4 a5 := m in mk a1 a2 v a4 a5.
Definition set_show_exp_opt (v : bool) m : t P :=
  let 'mk a1 a2 a3 _ a5 := m in mk a1 a2 a3 v a5.
End Setters.
End Plot.

(** [setting_model] *)
Module Setting.
Record t := mk { parameters : loc; data_sets : loc }.
Definition set_parameters (v : loc) (m : t) : t := mk v (data_sets m).
Definition set_data_sets (v : loc) (m : t) : t := mk (parameters m) v.
End Setting.

(** [fit_model]: [fit_img] maps a result name to a fit result of type [R]. *)
Module Fit.
Record t {R : Type} := mk { data_sets : loc; fit_img : gmap string R }.
Arguments t : clear implicits.
Arguments mk {_}.
Definition set_data_sets {R} (v : loc) (m : t R) : t R := mk v (fit_img m).
Definition set_fit_img {R} (v : gmap string R) (m : t R) : t R := mk (data_sets m) v.
End Fit.

(** The widgets whose attributes the handlers read or write. *)
Module Ui.
Record t := mk {
  files_load_text : string;              (* files_load.text *)
  folder_btn_enabled : bool;             (* folder_btn.enabled *)
  run_num_value : Z;                     (* run_num.value *)
  cb_file_overwrite_existing_checked : bool;
  mask_load_note_text : string;          (* mask_load_note.text *)
  mask_view_visible : bool;              (* mask_edit.visible *)
}.
Definition set_files_load_text (v : string) (u : t) : t :=
  let 'mk _ a2 a3 a4 a5 a6 := u in mk v a2 a3 a4 a5 a6.
Definition set_folder_btn_enabled (v : bool) (u : t) : t :=
  let 'mk a1 _ a3 a4 a5 a6 := u in mk a1 v a3 a4 a5 a6.
Definition set_run_num_value (v : Z) (u : t) : t :=
  let 'mk a1 a2 _ a4 a5 a6 := u in mk a1 a2 v a4 a5 a6.
Definition set_cb_file_overwrite_existing_checked (v : bool) (u : t) : t :=
  let 'mk a1 a2 a3 _ a5 a6 := u in mk a1 a2 a3 v a5 a6.
Definition set_mask_load_note_text (v : string) (u : t) : t :=
  let 'mk a1 a2 a3 a4 _ a6 := u in mk a1 a2 a3 a4 v a6.
Definition set_mask_view_visible (v : bool) (u : t) : t :=
  let 'mk a1 a2 a3 a4 a5 _ := u in mk a1 a2 a3 a4 a5 v.

(** As the enaml file declares them. *)
Definition initial : t :=
  {| files_load_text := "No data is loaded.";
     folder_btn_enabled := true;
     run_num_value := -1;
     cb_file_overwrite_existing_checked := false;
     mask_load_note_text := "No file is loaded.";
     mask_view_visible := false |}.
End Ui.

(** ** What a handler can observe and cause

    A call into model code either returns or raises; the view never looks at
    the exception (its handlers are bare [except:] clauses). *)
Inductive outcome := Returned | Raised.

(** Calls from the view into model code.  [AssignFileName v] is the assignment
    [io_model.file_name = v], whose observers load the file. *)
Inductive call :=
| AssignFileName (v : string)
| LoadDataRunid
| WindowTitleClear
| WindowTitleSetFileName (v : string)
| WindowTitleSetRunId (v : Z)
| ApplyMask
| PlotMultiExpData.

(** The message boxes of [enaml.stdlib.message_box]. *)
Inductive box := Critical | Warning | Question | Information.

Inductive event :=
| Shown (b : box) (title text : string)
| Called (c : call) (o : outcome).

Inductive exn :=
| KeyError (key : string)
| IndexError
| AttributeError (name : string)
| ModelError.

Inductive result (A : Type) :=
| Ok (a : A)
| Exc (e : exn).
Arguments Ok {A} a.
Arguments Exc {A} e.

(** The model code the view calls: each method acts on the object it is
    called on and on the shared store, and returns or raises.  [sep_v] is the
    path separator imported from [pyxrf.model.fileio], one character. *)
Record Backend {IoP PlotP : Type} := mkBackend {
  assign_file_name : string -> Store -> Io.t IoP -> Store * Io.t IoP * outcome;
  load_data_runid : Store -> Io.t IoP -> Store * Io.t IoP * outcome;
  window_title_clear : Store -> Io.t IoP -> Store * Io.t IoP * outcome;
  window_title_set_file_name : string -> Store -> Io.t IoP -> Store * Io.t IoP * outcome;
  window_title_set_run_id : Z -> Store -> Io.t IoP -> Store * Io.t IoP * outcome;
  apply_mask : Store -> Io.t IoP -> Store * Io.t IoP * outcome;
  plot_multi_exp_data : Store -> Plot.t PlotP -> Store * Plot.t PlotP * outcome;
  sep_v : ascii;
}.
Arguments Backend : clear implicits.
Arguments mkBackend {_ _}.

(** The objects a handler runs against. *)
Record World {IoP PlotP R : Type} := mkWorld {
  store : Store;
  io : Io.t IoP;
  param : Param.t;
  plot : Plot.t PlotP;
  setting : Setting.t;
  fit : Fit.t R;
  ui : Ui.t;
}.
Arguments World : clear implicits.
Arguments mkWorld {_ _ _}.

Section Monad.
Context {IoP PlotP R : Type}.
Abbreviation World := (World IoP PlotP R).

Definition on_store (f : Store -> Store) (w : World) : World :=
  let 'mkWorld a1 a2 a3 a4 a5 a6 a7 := w in mkWorld (f a1) a2 a3 a4 a5 a6 a7.
Definition on_io (f : Io.t IoP -> Io.t IoP) (w : World) : World :=
  let 'mkWorld a1 a2 a3 a4 a5 a6 a7 := w in mkWorld a1 (f a2) a3 a4 a5 a6 a7.
Definition on_plot (f : Plot.t PlotP -> Plot.t PlotP) (w : World) : World :=
  let 'mkWorld a1 a2 a3 a4 a5 a6 a7 := w in mkWorld a1 a2 a3 (f a4) a5 a6 a7.
Definition on_setting (f : Setting.t -> Setting.t) (w : World) : World :=
  let 'mkWorld a1 a2 a3 a4 a5 a6 a7 := w in mkWorld a1 a2 a3 a4 (f a5) a6 a7.
Definition on_fit (f : Fit.t R -> Fit.t R) (w : World) : World :=
  let 'mkWorld a1 a2 a3 a4 a5 a6 a7 := w in mkWorld a1 a2 a3 a4 a5 (f a6) a7.
Definition on_ui (f : Ui.t -> Ui.t) (w : World) : World :=
  let 'mkWorld a1 a2 a3 a4 a5 a6 a7 := w in mkWorld a1 a2 a3 a4 a5 a6 (f a7).

(** A handler: from the world to the world it leaves, the events it caused
    in order, and its result.  What was written before an exception stays
    written. *)
Definition M (A : Type) : Type := World -> World * list event * result A.

#[export] Instance M_ret : MRet M := fun A a w => (w, [], Ok a).

#[export] Instance M_bind : MBind M := fun A B f m w =>
  let '(w1, e1, r) := m w in
  match r with
  | Ok a => let '(w2, e2, r2) := f a w1 in (w2, e1 ++ e2, r2)
  | Exc e => (w1, e1, Exc e)
  end.

Definition get : M World := fun w => (w, [], Ok w).
Definition assign (f : World -> World) : M unit := fun w => (f w, [], Ok tt).
Definition raise {A} (e : exn) : M A := fun w => (w, [], Exc e).
Definition pass : M unit := mret tt.

(** A modal message box: the handler blocks until it is dismissed. *)
Definition show (b : box) (title text : string) : M unit :=
  fun w => (w, [Shown b title text], Ok tt).

Definition of_outcome (o : outcome) : result unit :=
  match o with Returned => Ok tt | Raised => Exc ModelError end.

(** A call of a method of [io_model], resp. [plot_model]. *)
Definition call_io (c : call)
    (op : Store -> Io.t IoP -> Store * Io.t IoP * outcome) : M unit :=
  fun w =>
    let '(st, m, o) := op (store w) (io w) in
    (on_io (fun _ => m) (on_store (fun _ => st) w), [Called c o], of_outcome o).

Definition call_plot (c : call)
    (op : Store -> Plot.t PlotP -> Store * Plot.t PlotP * outcome) : M unit :=
  fun w =>
    let '(st, m, o) := op (store w) (plot w) in
    (on_plot (fun _ => m) (on_store (fun _ => st) w), [Called c o], of_outcome o).

(** [try: body / except: handler / else: orelse] *)
Definition try_except_else (body handler orelse : M unit) : M unit :=
  fun w =>
    let '(w1, e1, r) := body w in
    let '(w2, e2, r2) :=
      match r with
      | Ok _ => orelse w1
      | Exc _ => handler w1
      end in
    (w2, e1 ++ e2, r2).

(** [io_model.data_sets[ch]] *)
Definition data_set_of (ch : string) : M DataSet :=
  w ← get;
  match dict_at (store w) (Io.data_sets (io w)) !! ch with
  | Some ds => mret ds
  | None => raise (KeyError ch)
  end.

End Monad.

(** ** [FileView] *)

Section FileView.
Context {IoP PlotP R : Type}.
Variable B : Backend IoP PlotP.
Local Abbreviation M := (@M IoP PlotP R).
Local Abbreviation Handler := (M unit).

(** [folder_btn.clicked]; [path] is what the directory dialog returned. *)
Definition folder_btn_clicked (path : string) : Handler :=
  if Str.truthy path then
    assign (on_io (Io.set_working_directory path))
  else pass.

(** The text of the error box of [files_btn]. *)
Definition incorrect_format (path0 : string) : string :=
  "Incorrect format of input file " +:+ Str.dquote +:+ path0 +:+ Str.dquote
  +:+ ": PyXRF accepts only custom HDF (.h5) files.".

Definition incident_energy_warning : string :=
  "Incident energy is not available in scan metadata and must be set manually"
  +:+ Str.nl +:+ Str.nl
  +:+ "    Incident energy may be set by changing 'Incident E [keV]' parameter" +:+ Str.nl
  +:+ "    in 'Automated Element Search Parameters' dialog box, which is accessed" +:+ Str.nl
  +:+ "    by using 'Find Elements Automatically' button in 'Fit' tab." +:+ Str.nl.

(** The five assignments both load handlers make on success. *)
Definition update_dependent_models : Handler :=
  assign (fun w => on_plot (Plot.set_parameters (Param.param_new (param w))) w);;
  assign (fun w => on_setting (Setting.set_parameters (Param.param_new (param w))) w);;
  assign (fun w => on_setting (Setting.set_data_sets (Io.data_sets (io w))) w);;
  assign (fun w => on_fit (Fit.set_data_sets (Io.data_sets (io w))) w);;
  assign (on_fit (Fit.set_fit_img ∅)).

(** [files_btn.clicked], lines 80-85: up to the [try] statement.  Returns
    [f_name]. *)
Definition files_btn_prepare (path0 : string) : M string :=
  assign (on_io (Io.set_data_ready false));;
  call_io (AssignFileName "temp") (assign_file_name B "temp");;
  let '(f_dir, f_name) := OsPath.split path0 in
  assign (on_io (Io.set_working_directory f_dir));;
  mret f_name.

(** [files_btn.clicked], lines 86-115: the [try] statement. *)
Definition files_btn_try (path0 f_name : string) : Handler :=
  try_except_else
    (call_io (AssignFileName f_name) (assign_file_name B f_name))
    (show Critical "ERROR" (incorrect_format path0);;
     call_io WindowTitleClear (window_title_clear B))
    (assign (fun w =>
       on_ui (Ui.set_files_load_text (Io.file_name (io w) +:+ " is loaded.")) w);;
     assign (on_ui (Ui.set_folder_btn_enabled false));;
     update_dependent_models;;
     call_io (WindowTitleSetFileName f_name) (window_title_set_file_name B f_name);;
     w ← get;
     if negb (Io.incident_energy_available (io w)) then
       show Warning "Warning" incident_energy_warning
     else pass).

(** [files_btn.clicked]; [path] is the list the file dialog returned. *)
Definition files_btn_clicked (path : list string) : Handler :=
  match path with
  | [] => pass
  | path0 :: _ =>
      f_name ← files_btn_prepare path0;
      files_btn_try path0 f_name
  end.

Definition db_error (runid : Z) : string :=
  "Error occurred while reading data (Run ID: " +:+ pretty runid
  +:+ ") from the database".

(** [load_btn.clicked], lines 158-160. *)
Definition load_btn_prepare : Handler :=
  assign (fun w => on_io (Io.set_runid (Ui.run_num_value (ui w))) w);;
  assign (on_io (Io.set_data_ready false)).

(** [load_btn.clicked], lines 162-189: the [try] statement. *)
Definition load_btn_try : Handler :=
  try_except_else
    (call_io LoadDataRunid (load_data_runid B))
    (w ← get;
     show Critical "ERROR" (db_error (Io.runid (io w)));;
     call_io WindowTitleClear (window_title_clear B))
    (assign (fun w =>
       on_ui (Ui.set_files_load_text
                ("Scan #" +:+ pretty (Io.runid (io w)) +:+ " from the database.")) w);;
     assign (on_plot (Plot.set_plot_exp_opt false));;
     assign (on_ui (Ui.set_folder_btn_enabled false));;
     update_dependent_models;;
     w ← get;
     call_io (WindowTitleSetRunId (Io.runid (io w)))
             (window_title_set_run_id B (Io.runid (io w)))).

(** [load_btn.clicked] *)
Definition load_btn_clicked : Handler :=
  load_btn_prepare;;
  load_btn_try;;
  assign (on_ui (Ui.set_run_num_value (-1))).

Definition overwrite_question : string :=
  "Loading data from the database with 'Overwrite Existing Files' option enabled"
  +:+ Str.nl
  +:+ "may result in overwriting existing files that contain processing results."
  +:+ Str.nl
  +:+ "Are you sure you want to enable this option?".

(** A change of [cb_file_overwrite_existing.checked]: the attribute, and
    through [checked := io_model.file_overwrite_existing] the model. *)
Definition cb_file_overwrite_existing_set (v : bool) : Handler :=
  assign (on_ui (Ui.set_cb_file_overwrite_existing_checked v));;
  assign (on_io (Io.set_file_overwrite_existing v)).

(** The [checked ::] block.  [res] is what [question] returned: the text of
    the button clicked, or [None] when the box was closed without a click.
    The assignment in the block changes [checked] and so runs the block
    again: [reenter]. *)
Definition cb_file_overwrite_existing_notify
    (reenter : Handler) (res : option string) : Handler :=
  w ← get;
  if Ui.cb_file_overwrite_existing_checked (ui w) then
    show Question "Warning" overwrite_question;;
    match res with
    | None => raise (AttributeError "text")
    | Some text =>
        if String.eqb text "No" then
          cb_file_overwrite_existing_set false;; reenter
        else pass
    end
  else pass.

Definition cb_file_overwrite_existing_checked (res : option string) : Handler :=
  cb_file_overwrite_existing_notify
    (cb_file_overwrite_existing_notify pass None) res.


(** [mask_opt.clicked]: [mask_edit.show()] or [mask_edit.hide()]. *)
Definition mask_opt_clicked (checked : bool) : Handler :=
  if checked then assign (on_ui (Ui.set_mask_view_visible true))
  else assign (on_ui (Ui.set_mask_view_visible false)).

(** [io_model.data_sets[ch].plot_index = v] *)
Definition assign_plot_index (ch : string) (v : Z) : Handler :=
  ds ← data_set_of ch;
  assign (fun w => on_store (store_set (Io.data_sets (io w)) ch (set_plot_index v ds)) w).

(** [if x:] on an integer *)
Definition nonzero (x : Z) : bool := negb (x =? 0).

(** The loop of [rb_1.clicked] over [io_model.file_channel_list]. *)
Fixpoint count_plots (channels : list string) (n_plots : Z) : M Z :=
  match channels with
  | [] => mret n_plots
  | v :: rest =>
      ds ← data_set_of v;
      count_plots rest (if nonzero (plot_index ds) then n_plots + 1 else n_plots)
  end.

(** The three statements [rb_1.clicked] and [rb_2.clicked] start with, for
    the group box of channel [loop_item]; [v] is 0 in the first and 1 in
    the second. *)
Definition rb_replot (loop_item : string) (v : Z) : Handler :=
  assign_plot_index loop_item v;;
  assign (fun w => on_plot (Plot.set_data_sets (Io.data_sets (io w))) w);;
  call_plot PlotMultiExpData (plot_multi_exp_data B).

(** [rb_1.clicked] (HIDE) *)
Definition rb_1_clicked (loop_item : string) : Handler :=
  rb_replot loop_item 0;;
  w ← get;
  n_plots ← count_plots (Io.file_channel_list (io w)) 0;
  if negb (nonzero n_plots) then assign (on_plot (Plot.set_show_exp_opt false))
  else pass.

(** [rb_2.clicked] (SHOW) *)
Definition rb_2_clicked (loop_item : string) : Handler :=
  rb_replot loop_item 1;;
  assign (on_plot (Plot.set_show_exp_opt true)).

End FileView.

(** ** [MaskView] *)

Section MaskView.
Context {IoP PlotP R : Type}.
Variable B : Backend IoP PlotP.
Local Abbreviation M := (@M IoP PlotP R).
Local Abbreviation Handler := (M unit).

(** The [checked] expressions of the three radio buttons. *)
Definition rb_pos_checked (io_model : Io.t IoP) : bool := Io.mask_opt io_model =? 0.
Definition rb_file_checked (io_model : Io.t IoP) : bool := Io.mask_opt io_model =? 0.
Definition rb_nomask_checked (io_model : Io.t IoP) : bool := Io.mask_opt io_model =? 0.

(** Their [clicked] blocks; [checked] is the button's state when the block
    runs. *)
Definition rb_pos_clicked (checked : bool) : Handler :=
  if checked then assign (on_io (Io.set_mask_opt 1)) else pass.
Definition rb_file_clicked (checked : bool) : Handler :=
  if checked then assign (on_io (Io.set_mask_opt 2)) else pass.
Definition rb_nomask_clicked (checked : bool) : Handler :=
  if checked then assign (on_io (Io.set_mask_opt 0)) else pass.

(** [[item.split(sep_v)[-1] for item in path][0]] *)
Definition first_base_name (path : list string) : M string :=
  match map (Str.last_field (sep_v B)) path with
  | name :: _ => mret name
  | [] => raise IndexError
  end.

(** [mask_btn.clicked]; [path] is the list the file dialog returned. *)
Definition mask_btn_clicked (path : list string) : Handler :=
  if Str.nonempty path then
    name ← first_base_name path;
    assign (on_io (Io.set_mask_name name));;
    name ← first_base_name path;
    assign (on_ui (Ui.set_mask_load_note_text name))
  else pass.

(** [save_btn.clicked] *)
Definition save_btn_clicked : Handler :=
  call_io ApplyMask (apply_mask B);;
  assign (on_ui (Ui.set_mask_view_visible false)).

(** What can happen in the mask window: a click on a button, or an edit of
    one of the four position fields, which [value := io_model.p1_row] (and
    the like) writes to the model. *)
Inductive mask_event :=
| RbPos (checked : bool)
| RbFile (checked : bool)
| RbNomask (checked : bool)
| MaskBtn (path : list string)
| SaveBtn
| R1f (value : Z)
| C1f (value : Z)
| R2f (value : Z)
| C2f (value : Z).

Definition mask_view_handle (e : mask_event) : Handler :=
  match e with
  | RbPos checked => rb_pos_clicked checked
  | RbFile checked => rb_file_clicked checked
  | RbNomask checked => rb_nomask_clicked checked
  | MaskBtn path => mask_btn_clicked path
  | SaveBtn => save_btn_clicked
  | R1f v => assign (on_io (Io.set_p1_row v))
  | C1f v => assign (on_io (Io.set_p1_col v))
  | R2f v => assign (on_io (Io.set_p2_row v))
  | C2f v => assign (on_io (Io.set_p2_col v))
  end.

End MaskView.

(** ** The batch entry point

    [examples/Batch_mode_fit.ipynb] calls
    [pyxrf.model.command_tools.fit_pixel_data_and_save]; the function itself
    is not among the sources.  Python's binding of the arguments of a call to
    the parameters of a signature is written out, and the three calls of the
    notebook are taken from it. *)

Module Batch.

Inductive value :=
| VNone
| VBool (b : bool)
| VInt (z : Z)
| VStr (s : string)
| VList (l : list string).

Definition truthy (v : value) : bool :=
  match v with
  | VNone => false
  | VBool b => b
  | VInt z => negb (z =? 0)
  | VStr s => Str.truthy s
  | VList l => Str.nonempty l
  end.

Record parameter := mkParameter { name : string; default : option value }.

Record call_args := mkCall {
  positional : list value;
  keywords : list (string * value);
}.

(** Positional arguments fill the parameters from the left; more arguments
    than parameters is a [TypeError] ([None]). *)
Fixpoint bind_positional (params : list parameter) (args : list value)
    : option (list (string * value) * list parameter) :=
  match args, params with
  | [], _ => Some ([], params)
  | _ :: _, [] => None
  | a :: args', p :: params' =>
      '(bound, rest) ← bind_positional params' args';
      Some ((name p, a) :: bound, rest)
  end.

Fixpoint keyword (k : string) (kws : list (string * value)) : option value :=
  match kws with
  | [] => None
  | (k', v) :: kws' => if String.eqb k' k then Some v else keyword k kws'
  end.

(** Every keyword names a parameter not bound by position, and no keyword
    is repeated. *)
Fixpoint keywords_ok (rest : list parameter) (kws : list (string * value)) : bool :=
  match kws with
  | [] => true
  | (k, _) :: kws' =>
      existsb (fun p => String.eqb (name p) k) rest
      && negb (existsb (fun q => String.eqb (fst q) k) kws')
      && keywords_ok rest kws'
  end.

(** The other parameters take their keyword or their default; a parameter
    with neither is a [TypeError]. *)
Fixpoint bind_rest (rest : list parameter) (kws : list (string * value))
    : option (list (string * value)) :=
  match rest with
  | [] => Some []
  | p :: rest' =>
      v ← match keyword (name p) kws with
          | Some v => Some v
          | None => default p
          end;
      tl ← bind_rest rest' kws;
      Some ((name p, v) :: tl)
  end.

Definition bind (sig : list parameter) (c : call_args)
    : option (list (string * value)) :=
  '(bound, rest) ← bind_positional sig (positional c);
  if keywords_ok rest (keywords c) then
    tl ← bind_rest rest (keywords c);
    Some (bound ++ tl)
  else None.

(** Modelled from the spec: the signature of [fit_pixel_data_and_save]
    (defined in [pyxrf/model/command_tools.py], which is not among the
    sources), as section 6 of the specification gives it. *)
Definition signature : list parameter :=
  [ mkParameter "working_dir" None;
    mkParameter "file_name" None;
    mkParameter "param_file_name" None;
    mkParameter "fit_channel_each" (Some (VBool false));
    mkParameter "param_channel_list" (Some VNone);
    mkParameter "save_txt" (Some (VBool false));
    mkParameter "save_tiff" (Some (VBool true));
    mkParameter "incident_energy" (Some VNone) ].

Record arguments := mkArguments {
  working_dir : value;
  file_name : value;
  param_file_name : value;
  fit_channel_each : value;
  param_channel_list : value;
  save_txt : value;
  save_tiff : value;
  incident_energy : value;
}.

Definition arguments_of (bound : list (string * value)) : option arguments :=
  match map snd bound with
  | [a1; a2; a3; a4; a5; a6; a7; a8] => Some (mkArguments a1 a2 a3 a4 a5 a6 a7 a8)
  | _ => None
  end.

Inductive spectra := Summed | PerChannel.

(** What a run fits and writes. *)
Record plan := mkPlan {
  fitted : spectra;
  writes_txt : bool;
  writes_tiff : bool;
  energy : value;
}.

(** Modelled from the spec: what [fit_pixel_data_and_save] does with its
    arguments (the body is in [pyxrf/model/command_tools.py], not among
    the sources): it "fits summed or per-channel spectra for a scan file
    using a named JSON parameter file, optionally overriding incident
    energy, and optionally persisting text/image outputs".
    [file_energy] is the incident energy of the parameter file. *)
Definition fit_pixel_data_and_save (file_energy : value) (a : arguments) : plan :=
  {| fitted := if truthy (fit_channel_each a) then PerChannel else Summed;
     writes_txt := truthy (save_txt a);
     writes_tiff := truthy (save_tiff a);
     energy := match incident_energy a with
               | VNone => file_energy
               | e => e
               end |}.

(** A call, from its arguments to what it does; [None] is a [TypeError]. *)
Definition run (file_energy : value) (c : call_args) : option plan :=
  bound ← bind signature c;
  a ← arguments_of bound;
  Some (fit_pixel_data_and_save file_energy a).

(** The calls of the notebook. *)
Definition wd : value := VStr "/Users/Li/Research/Experiment/twin_boundary_stitch".
Definition param_file : value := VStr "2468_fitting.json".
Definition paramlist : value :=
  VList ["2468_fitting_det1.json"; "2468_fitting_det2.json"; "2468_fitting_det2.json"].

(** [fit_pixel_data_and_save(wd, fname, param_file_name=param_file)] *)
Definition call_sum (fname : string) : call_args :=
  mkCall [wd; VStr fname] [("param_file_name", param_file)].

(** [fit_pixel_data_and_save(wd, fname, param_file_name=param_file,
      fit_channel_each=True, param_channel_list=paramlist,
      save_txt=True, save_tiff=True)] *)
Definition call_each (fname : string) : call_args :=
  mkCall [wd; VStr fname]
    [("param_file_name", param_file); ("fit_channel_each", VBool true);
     ("param_channel_list", paramlist); ("save_txt", VBool true);
     ("save_tiff", VBool true)].

(** [fit_pixel_data_and_save(wd, fname, param_file_name=param_file,
      incident_energy=energy)] with [fname = 'scan_2468.h5'], [energy = 10] *)
Definition call_energy : call_args :=
  mkCall [wd; VStr "scan_2468.h5"]
    [("param_file_name", param_file); ("incident_energy", VInt 10)].

End Batch.

(** ** A small backend

    A concrete instance of the model code, on which the statements below are
    exercised: files whose name ends in [.h5] load, scans with a
    non-negative id load, and the other methods return without effect. *)

Module Sample.

Fixpoint ends_with_h5 (s : string) : bool :=
  match s with
  | EmptyString => false
  | String _ rest => String.eqb s ".h5" || ends_with_h5 rest
  end.

Definition with_file_name (v : string) (m : Io.t unit) : Io.t unit :=
  let 'Io.mk a1 _ a3 a4 a5 a6 a7 a8 a9 a10 a11 a12 a13 a14 a15 := m in
  Io.mk a1 v a3 a4 a5 a6 a7 a8 a9 a10 a11 a12 a13 a14 a15.

Definition h5_assign_file_name (v : string) (st : Store) (m : Io.t unit)
    : Store * Io.t unit * outcome :=
  if String.eqb v "temp" || ends_with_h5 v
  then (st, with_file_name v m, Returned)
  else (st, with_file_name v m, Raised).

Definition db_load_data_runid (st : Store) (m : Io.t unit) : Store * Io.t unit * outcome :=
  (st, m, if Io.runid m <? 0 then Raised else Returned).

Definition nop {A : Type} (st : Store) (m : A) : Store * A * outcome :=
  (st, m, Returned).

Definition backend : Backend unit unit :=
  {| assign_file_name := h5_assign_file_name;
     load_data_runid := db_load_data_runid;
     window_title_clear := nop;
     window_title_set_file_name := fun _ => nop;
     window_title_set_run_id := fun _ => nop;
     apply_mask := nop;
     plot_multi_exp_data := nop;
     sep_v := OsPath.sep |}.

Definition channels : gmap string DataSet :=
  <["det1" := mkDataSet 1 [3; 4; 4096]]> (<["det2" := mkDataSet 0 [3; 4; 4096]]> ∅).

Definition world : World unit unit unit :=
  {| store := <[1%positive := channels]> ∅;
     io := {| Io.working_directory := "/data";
              Io.file_name := "scan_2467.h5";
              Io.data_ready := true;
              Io.runid := 2467;
              Io.file_overwrite_existing := false;
              Io.file_channel_list := ["det1"; "det2"];
              Io.data_sets := 1%positive;
              Io.incident_energy_available := true;
              Io.mask_opt := 0;
              Io.mask_name := "";
              Io.p1_row := 0; Io.p1_col := 0; Io.p2_row := 0; Io.p2_col := 0;
              Io.private := tt |};
     param := {| Param.param_new := 2%positive |};
     plot := {| Plot.parameters := 3%positive; Plot.data_sets := 4%positive;
                Plot.plot_exp_opt := true; Plot.show_exp_opt := true;
                Plot.private := tt |};
     setting := {| Setting.parameters := 3%positive; Setting.data_sets := 4%positive |};
     fit := {| Fit.data_sets := 4%positive; Fit.fit_img := <["Fe_K" := tt]> ∅ |};
     ui := Ui.initial |}.

(** The same world with [run_num.value] typed in. *)
Definition world_run (run : Z) : World unit unit unit :=
  on_ui (Ui.set_run_num_value run) world.

End Sample.

(** ** Vocabulary of the statements *)

Section Observations.
Context {IoP PlotP R : Type}.
Variable B : Backend IoP PlotP.
Local Abbreviation World := (World IoP PlotP R).
Local Abbreviation M := (@M IoP PlotP R).

Definition world_after {A} (h : M A) (w : World) : World := fst (fst (h w)).
Definition events_of {A} (h : M A) (w : World) : list event := snd (fst (h w)).
Definition result_of {A} (h : M A) (w : World) : result A := snd (h w).

Definition is_critical (e : event) : bool :=
  match e with Shown Critical _ _ => true | _ => false end.
Definition is_window_title_clear (e : event) : bool :=
  match e with Called WindowTitleClear _ => true | _ => false end.

(** A critical box was shown; [window_title_clear()] was called. *)
Definition shows_critical (evs : list event) : bool := existsb is_critical evs.
Definition clears_window_title (evs : list event) : bool :=
  existsb is_window_title_clear evs.

(** The load of a click on [files_btn] with dialog answer [path]: the world
    in which [io_model.file_name = f_name] is attempted, and [f_name].
    [None] when the handler does not get there (nothing selected, or the
    reset to ['temp'] raised). *)
Definition file_load_attempt (path : list string) (w : World)
    : option (World * string) :=
  match path with
  | [] => None
  | path0 :: _ =>
      match files_btn_prepare B path0 w with
      | (w1, _, Ok f_name) => Some (w1, f_name)
      | (_, _, Exc _) => None
      end
  end.

(** What that assignment leaves and whether it raised. *)
Definition file_load (path : list string) (w : World)
    : option (Store * Io.t IoP * outcome) :=
  '(w1, f_name) ← file_load_attempt path w;
  Some (assign_file_name B f_name (store w1) (io w1)).

Definition file_load_outcome (path : list string) (w : World) : option outcome :=
  snd <$> file_load path w.

(** The same for a click on [load_btn]: [io_model.load_data_runid()] is
    always attempted. *)
Definition db_load (w : World) : Store * Io.t IoP * outcome :=
  let w1 := world_after (load_btn_prepare (R:=R)) w in
  load_data_runid B (store w1) (io w1).

Definition db_load_outcome (w : World) : outcome := snd (db_load w).

(** [io_model.data_sets[ch].plot_index], when the channel has a data set. *)
Definition plot_index_at (w : World) (ch : string) : option Z :=
  plot_index <$> dict_at (store w) (Io.data_sets (io w)) !! ch.

Definition hidden (w : World) (ch : string) : bool :=
  match plot_index_at w ch with
  | Some 0 => true
  | _ => false
  end.

(** Every channel of [io_model.file_channel_list] has [plot_index] 0. *)
Definition all_hidden (w : World) : bool :=
  forallb (hidden w) (Io.file_channel_list (io w)).

(** [mask_opt] is one of the three modes. *)
Definition mask_opt_valid (m : Io.t IoP) : Prop :=
  Io.mask_opt m = 0 \/ Io.mask_opt m = 1 \/ Io.mask_opt m = 2.

(** How many of the three radio buttons of the mask window have a true
    [checked] expression. *)
Definition checked_count (m : Io.t IoP) : nat :=
  (Nat.b2n (rb_pos_checked m) + Nat.b2n (rb_file_checked m)
   + Nat.b2n (rb_nomask_checked m))%nat.

End Observations.

(** ** Further vocabulary: boxes, channel counts, runs of the mask window *)

Section MoreObservations.
Context {IoP PlotP R : Type}.
Variable B : Backend IoP PlotP.
Local Abbreviation World := (World IoP PlotP R).

Definition is_warning (e : event) : bool :=
  match e with Shown Warning _ _ => true | _ => false end.
Definition is_box (e : event) : bool :=
  match e with Shown _ _ _ => true | Called _ _ => false end.

Definition shows_warning (evs : list event) : bool := existsb is_warning evs.

(** The message boxes among the events. *)
Definition boxes (evs : list event) : list event := List.filter is_box evs.

(** [c in s] for a one-character [c]. *)
Fixpoint has_char (c : ascii) (s : string) : bool :=
  match s with
  | EmptyString => false
  | String a rest => Ascii.eqb a c || has_char c rest
  end.

(** The channels of a list that are shown in dictionary [d]: those with a
    data set whose [plot_index] is not 0. *)
Definition shown_in (d : gmap string DataSet) (ch : string) : bool :=
  match d !! ch with
  | Some ds => nonzero (plot_index ds)
  | None => false
  end.

Definition count_shown (d : gmap string DataSet) (channels : list string) : Z :=
  Z.of_nat (length (List.filter (shown_in d) channels)).

(** The first channel of a list that has no data set in [d]. *)
Definition first_missing (d : gmap string DataSet) (channels : list string)
    : option string :=
  List.find (fun v => match d !! v with Some _ => false | None => true end) channels.

(** The events of the mask window handled one after the other, each on the
    world the one before left (an exception ends a handler, not the
    window). *)
Definition mask_view_run (events : list mask_event) (w : World) : World :=
  fold_left (fun w e => world_after (mask_view_handle B e) w) events w.

(** The mode a radio-button click selects, if it selects one. *)
Definition mode_of (e : mask_event) : option Z :=
  match e with
  | RbPos true => Some 1
  | RbFile true => Some 2
  | RbNomask true => Some 0
  | _ => None
  end.

(** The mode selected last in a run that starts in mode [current]. *)
Definition last_mode (events : list mask_event) (current : Z) : Z :=
  fold_left (fun z e => default z (mode_of e)) events current.

End MoreObservations.

(** A backend in which the database, the plotting code and the mask code
    fail; files load as in [Sample]. *)
Module Faulty.

Definition failing {A : Type} (st : Store) (m : A) : Store * A * outcome :=
  (st, m, Raised).

Definition backend : Backend unit unit :=
  {| assign_file_name := Sample.h5_assign_file_name;
     load_data_runid := failing;
     window_title_clear := Sample.nop;
     window_title_set_file_name := fun _ => Sample.nop;
     window_title_set_run_id := fun _ => Sample.nop;
     apply_mask := failing;
     plot_multi_exp_data := failing;
     sep_v := OsPath.sep |}.

(** A backend in which every assignment to [io_model.file_name] raises. *)
Definition locked : Backend unit unit :=
  {| assign_file_name := fun _ => failing;
     load_data_runid := failing;
     window_title_clear := Sample.nop;
     window_title_set_file_name := fun _ => Sample.nop;
     window_title_set_run_id := fun _ => Sample.nop;
     apply_mask := failing;
     plot_multi_exp_data := failing;
     sep_v := OsPath.sep |}.

End Faulty.

(** ** [io_model.file_name] as an observed member

    [file_name] is a member of an Atom object: an assignment stores the
    value and then runs the observers, and an assignment of the value the
    member already has notifies nobody.  This is what the comment in
    [files_btn.clicked] refers to: "'temp' is used to reload the same file,
    otherwise file_name will not update". *)
Module Atom.

Definition with_file_name {P : Type} (v : string) (m : Io.t P) : Io.t P :=
  let 'Io.mk a1 _ a3 a4 a5 a6 a7 a8 a9 a10 a11 a12 a13 a14 a15 := m in
  Io.mk a1 v a3 a4 a5 a6 a7 a8 a9 a10 a11 a12 a13 a14 a15.

(** [io_model.file_name = v], with [observer] the code that runs on a
    change. *)
Definition assign_observed {P : Type}
    (observer : Store -> Io.t P -> Store * Io.t P * outcome)
    (v : string) (st : Store) (m : Io.t P) : Store * Io.t P * outcome :=
  if String.eqb v (Io.file_name m) then (st, m, Returned)
  else observer st (with_file_name v m).

(** A backend whose [file_name] is such a member. *)
Definition backend {IoP PlotP : Type}
    (observer : Store -> Io.t IoP -> Store * Io.t IoP * outcome)
    (B : Backend IoP PlotP) : Backend IoP PlotP :=
  {| assign_file_name := assign_observed observer;
     load_data_runid := load_data_runid B;
     window_title_clear := window_title_clear B;
     window_title_set_file_name := window_title_set_file_name B;
     window_title_set_run_id := window_title_set_run_id B;
     apply_mask := apply_mask B;
     plot_multi_exp_data := plot_multi_exp_data B;
     sep_v := sep_v B |}.

(** An observer for the examples: it ignores ['temp'] and accepts names
    that end in [.h5]. *)
Definition h5_observer (st : Store) (m : Io.t unit) : Store * Io.t unit * outcome :=
  if String.eqb (Io.file_name m) "temp" then (st, m, Returned)
  else (st, m, if Sample.ends_with_h5 (Io.file_name m) then Returned else Raised).

End Atom.

(** ** Reading back what was written *)

Lemma io_setters_write {P : Type} (m : Io.t P) (s : string) (b : bool) (z : Z) :
  Io.working_directory (Io.set_working_directory s m) = s
  /\ Io.data_ready (Io.set_data_ready b m) = b
  /\ Io.runid (Io.set_runid z m) = z
  /\ Io.file_overwrite_existing (Io.set_file_overwrite_existing b m) = b
  /\ Io.mask_opt (Io.set_mask_opt z m) = z
  /\ Io.mask_name (Io.set_mask_name s m) = s
  /\ Io.p1_row (Io.set_p1_row z m) = z
  /\ Io.p1_col (Io.set_p1_col z m) = z
  /\ Io.p2_row (Io.set_p2_row z m) = z
  /\ Io.p2_col (Io.set_p2_col z m) = z.
Proof. destruct m; cbn; repeat split. Qed.

(** No setter of [io_model] touches [mask_opt] but its own. *)
Lemma io_setters_keep_mask_opt {P : Type} (m : Io.t P) (s : string) (b : bool) (z : Z) :
  Io.mask_opt (Io.set_working_directory s m) = Io.mask_opt m
  /\ Io.mask_opt (Io.set_data_ready b m) = Io.mask_opt m
  /\ Io.mask_opt (Io.set_runid z m) = Io.mask_opt m
  /\ Io.mask_opt (Io.set_file_overwrite_existing b m) = Io.mask_opt m
  /\ Io.mask_opt (Io.set_mask_name s m) = Io.mask_opt m
  /\ Io.mask_opt (Io.set_p1_row z m) = Io.mask_opt m
  /\ Io.mask_opt (Io.set_p1_col z m) = Io.mask_opt m
  /\ Io.mask_opt (Io.set_p2_row z m) = Io.mask_opt m
  /\ Io.mask_opt (Io.set_p2_col z m) = Io.mask_opt m.
Proof. destruct m; cbn; repeat split. Qed.

Lemma plot_setters_write {P : Type} (m : Plot.t P) (l : loc) (b : bool) :
  Plot.parameters (Plot.set_parameters l m) = l
  /\ Plot.data_sets (Plot.set_data_sets l m) = l
  /\ Plot.plot_exp_opt (Plot.set_plot_exp_opt b m) = b
  /\ Plot.show_exp_opt (Plot.set_show_exp_opt b m) = b.
Proof. destruct m; cbn; repeat split. Qed.

Lemma ui_setters_write (u : Ui.t) (s : string) (b : bool) (z : Z) :
  Ui.files_load_text (Ui.set_files_load_text s u) = s
  /\ Ui.folder_btn_enabled (Ui.set_folder_btn_enabled b u) = b
  /\ Ui.run_num_value (Ui.set_run_num_value z u) = z
  /\ Ui.cb_file_overwrite_existing_checked
       (Ui.set_cb_file_overwrite_existing_checked b u) = b
  /\ Ui.mask_load_note_text (Ui.set_mask_load_note_text s u) = s
  /\ Ui.mask_view_visible (Ui.set_mask_view_visible b u) = b.
Proof. destruct u; cbn; repeat split. Qed.

(** ** The load handlers *)

(** Unfolds a handler down to the calls into the backend. *)
Ltac unfold_handler :=
  unfold world_after, events_of, result_of,
    file_load_outcome, file_load, file_load_attempt, db_load_outcome, db_load,
    files_btn_clicked, files_btn_prepare, files_btn_try,
    load_btn_clicked, load_btn_prepare, load_btn_try,
    update_dependent_models, try_except_else, call_io, call_plot,
    assign, show, get, pass, raise, of_outcome,
    mbind, M_bind, mret, M_ret in *;
  cbn [fst snd fmap option_fmap option_map option_bind app] in *.

(** Names the result of the next backend call in the goal and splits on its
    outcome. *)
Ltac backend_call :=
  match goal with
  | |- context [assign_file_name ?B ?v ?st ?m] =>
      let o := fresh "o" in
      destruct (assign_file_name B v st m) as [[? ?] o] eqn:?; destruct o
  | |- context [load_data_runid ?B ?st ?m] =>
      let o := fresh "o" in
      destruct (load_data_runid B st m) as [[? ?] o] eqn:?; destruct o
  | |- context [window_title_clear ?B ?st ?m] =>
      let o := fresh "o" in
      destruct (window_title_clear B st m) as [[? ?] o] eqn:?; destruct o
  | |- context [window_title_set_file_name ?B ?v ?st ?m] =>
      let o := fresh "o" in
      destruct (window_title_set_file_name B v st m) as [[? ?] o] eqn:?; destruct o
  | |- context [window_title_set_run_id ?B ?v ?st ?m] =>
      let o := fresh "o" in
      destruct (window_title_set_run_id B v st m) as [[? ?] o] eqn:?; destruct o
  | |- context [apply_mask ?B ?st ?m] =>
      let o := fresh "o" in
      destruct (apply_mask B st m) as [[? ?] o] eqn:?; destruct o
  | |- context [plot_multi_exp_data ?B ?st ?m] =>
      let o := fresh "o" in
      destruct (plot_multi_exp_data B st m) as [[? ?] o] eqn:?; destruct o
  end; cbn in *.

Section LoadFacts.
Context {IoP PlotP R : Type}.
Variable B : Backend IoP PlotP.
Local Abbreviation World := (World IoP PlotP R).

(** C1. In the handler of "Load Data File" the dependent models are
    written only after [io_model.file_name = f_name] returned: then
    [plot_model.parameters] and [setting_model.parameters] are
    [param_model.param_new], [setting_model.data_sets] and
    [fit_model.data_sets] are the [io_model.data_sets] the load left, and
    [fit_model.fit_img] is empty.  When the assignment raises, or is not
    reached, [plot_model], [setting_model] and [fit_model] are as they
    were. *)
Theorem C1_dependent_models_after_load (path : list string) (w : World) :
  let w' := world_after (files_btn_clicked B path) w in
  match file_load B path w with
  | Some (_, loaded, Returned) =>
      plot w' = Plot.set_parameters (Param.param_new (param w)) (plot w)
      /\ setting w' = Setting.mk (Param.param_new (param w)) (Io.data_sets loaded)
      /\ fit w' = Fit.mk (Io.data_sets loaded) ∅
  | Some (_, _, Raised) | None =>
      plot w' = plot w /\ setting w' = setting w /\ fit w' = fit w
  end.
Proof.
  destruct w as [st m pa pl se fi u], path as [|path0 others];
    unfold_handler; cbn; [easy|].
  backend_call; [|easy].
  destruct (OsPath.split path0) as [f_dir f_name]; cbn.
  backend_call.
  - backend_call; try destruct (Io.incident_energy_available _); cbn; easy.
  - backend_call; easy.
Qed.

(** C2. A click on "Load Data File" or on "Load Data from Database" shows
    a critical box exactly when the load ([io_model.file_name = f_name],
    resp. [io_model.load_data_runid()]) raises, and exactly then calls
    [io_model.window_title_clear()]. *)
Theorem C2_failure_dialog (path : list string) (w : World) :
  let file_events := events_of (files_btn_clicked B path) w in
  let db_events := events_of (load_btn_clicked B) w in
  (shows_critical file_events = true <-> file_load_outcome B path w = Some Raised)
  /\ (clears_window_title file_events = true <-> file_load_outcome B path w = Some Raised)
  /\ (shows_critical db_events = true <-> db_load_outcome B w = Raised)
  /\ (clears_window_title db_events = true <-> db_load_outcome B w = Raised).
Proof.
  destruct w as [st m pa pl se fi u]; cbn zeta.
  assert (Hfile :
    (shows_critical (events_of (files_btn_clicked B path)
       (mkWorld st m pa pl se fi u)) = true
     <-> file_load_outcome B path (mkWorld st m pa pl se fi u) = Some Raised)
    /\ (clears_window_title (events_of (files_btn_clicked B path)
          (mkWorld st m pa pl se fi u)) = true
        <-> file_load_outcome B path (mkWorld st m pa pl se fi u) = Some Raised)).
  { destruct path as [|path0 others]; unfold_handler; cbn; [easy|].
    backend_call; [|easy].
    destruct (OsPath.split path0) as [f_dir f_name]; cbn.
    backend_call.
    - backend_call; try destruct (Io.incident_energy_available _); cbn; easy.
    - backend_call; easy. }
  destruct Hfile as [Hshow Hclear].
  split; [exact Hshow|]. split; [exact Hclear|].
  unfold_handler; cbn.
  backend_call; backend_call; easy.
Qed.

(** C3. When the handler of "Load Data from Database" completes,
    [run_num.value] is -1, whether [io_model.load_data_runid()] returned or
    raised; and it completes whenever the window-title method that follows
    the load returns. *)
Theorem C3_run_id_reset (w : World) :
  (result_of (load_btn_clicked B) w = Ok tt ->
   Ui.run_num_value (ui (world_after (load_btn_clicked B) w)) = -1)
  /\ ((forall st m, snd (window_title_clear B st m) = Returned) ->
      (forall v st m, snd (window_title_set_run_id B v st m) = Returned) ->
      result_of (load_btn_clicked B) w = Ok tt).
Proof.
  destruct w as [st m pa pl se fi u]; split.
  - destruct u; unfold_handler; cbn.
    backend_call; backend_call; cbn; intros H; solve [reflexivity | discriminate H].
  - intros Hclear Hset; unfold_handler; cbn.
    backend_call.
    + match goal with
      | |- context [window_title_set_run_id B ?v ?s ?x] =>
          specialize (Hset v s x);
          destruct (window_title_set_run_id B v s x) as [[? ?] ?]
      end.
      cbn in *; subst; reflexivity.
    + match goal with
      | |- context [window_title_clear B ?s ?x] =>
          specialize (Hclear s x);
          destruct (window_title_clear B s x) as [[? ?] ?]
      end.
      cbn in *; subst; reflexivity.
Qed.


(** C9. After a load that succeeded, from a file or from the database,
    [fit_model.fit_img] is the empty dictionary and [folder_btn] is
    disabled. *)
Theorem C9_fit_results_cleared (path : list string) (w : World) :
  (file_load_outcome B path w = Some Returned ->
   let w' := world_after (files_btn_clicked B path) w in
   Fit.fit_img (fit w') = ∅ /\ Ui.folder_btn_enabled (ui w') = false)
  /\ (db_load_outcome B w = Returned ->
      let w' := world_after (load_btn_clicked B) w in
      Fit.fit_img (fit w') = ∅ /\ Ui.folder_btn_enabled (ui w') = false).
Proof.
  destruct w as [st m pa pl se fi u]; split.
  - destruct path as [|path0 others]; unfold_handler; cbn; [discriminate|].
    backend_call; [|discriminate].
    destruct (OsPath.split path0) as [f_dir f_name]; cbn.
    backend_call; [|discriminate].
    intros _.
    backend_call; try destruct (Io.incident_energy_available _); cbn;
      destruct u; cbn; auto.
  - unfold_handler; cbn.
    backend_call; [|discriminate].
    intros _. backend_call; destruct u; cbn; auto.
Qed.

End LoadFacts.

(** ** The check box, the channel buttons and the mask window *)

Section ViewFacts.
Context {IoP PlotP R : Type}.
Variable B : Backend IoP PlotP.
Local Abbreviation World := (World IoP PlotP R).

Lemma dict_at_store_set (l : loc) (ch : string) (ds : DataSet) (st : Store) :
  dict_at (store_set l ch ds st) l !! ch = Some ds.
Proof.
  unfold dict_at, store_set. rewrite lookup_insert_eq. cbn.
  apply lookup_insert_eq.
Qed.




(** C4, as the code has it.  The three radio buttons of the mask window
    carry the same [checked] expression, [io_model.mask_opt == 0]: all
    three are true when [mask_opt] is 0 and none otherwise, so for no value
    of [mask_opt] is exactly one of them true; and after a click on
    "Define mask region based on positions" has written [mask_opt = 1],
    that button's expression is false. *)
Theorem C4_checked_expressions_coincide (w : World) :
  rb_pos_checked (io w) = rb_nomask_checked (io w)
  /\ rb_file_checked (io w) = rb_nomask_checked (io w)
  /\ checked_count (io w) = (if Io.mask_opt (io w) =? 0 then 3%nat else 0%nat)
  /\ checked_count (io w) <> 1%nat
  /\ rb_pos_checked (io (world_after (rb_pos_clicked true) w)) = false
  /\ rb_file_checked (io (world_after (rb_file_clicked true) w)) = false.
Proof.
  destruct w as [st m pa pl se fi u], m.
  unfold checked_count, rb_pos_checked, rb_file_checked, rb_nomask_checked; cbn.
  destruct (_ =? 0); cbn; repeat split; auto.
Qed.

(** C5. The radio buttons of the mask window write 1, 2 and 0 to
    [io_model.mask_opt]; and when [io_model.apply_mask()] keeps [mask_opt]
    within the three modes, so does everything that can happen in the mask
    window. *)
Theorem C5_mask_opt_enumerated (e : mask_event) (w : World) :
  (Io.mask_opt (io (world_after (rb_pos_clicked true) w)) = 1
   /\ Io.mask_opt (io (world_after (rb_file_clicked true) w)) = 2
   /\ Io.mask_opt (io (world_after (rb_nomask_clicked true) w)) = 0)
  /\ ((forall st m, mask_opt_valid m ->
                    mask_opt_valid (snd (fst (apply_mask B st m)))) ->
      mask_opt_valid (io w) ->
      mask_opt_valid (io (world_after (mask_view_handle B e) w))).
Proof.
  destruct w as [st m pa pl se fi u].
  split; [destruct m; cbn; auto|].
  intros Hmask Hvalid.
  assert (Hset : forall v, v = 0 \/ v = 1 \/ v = 2 ->
                           mask_opt_valid (Io.set_mask_opt v m)).
  { intros v Hv; destruct m; exact Hv. }
  destruct e as [[]|[]|[]|path| |v|v|v|v]; cbn; auto;
    try (destruct m; exact Hvalid).
  - unfold world_after, mask_btn_clicked, first_base_name, assign, pass, raise,
      mbind, M_bind, mret, M_ret.
    destruct path as [|p0 ps]; cbn; [exact Hvalid|].
    destruct m; exact Hvalid.
  - unfold world_after, save_btn_clicked, call_io, assign, of_outcome,
      mbind, M_bind; cbn.
    specialize (Hmask st m Hvalid).
    destruct (apply_mask B st m) as [[st' m'] []]; cbn in *; exact Hmask.
Qed.

End ViewFacts.

(** ** The batch entry point *)

(** C7. [fit_pixel_data_and_save] takes [working_dir], [file_name] and
    [param_file_name], and then [fit_channel_each=False],
    [param_channel_list=None], [save_txt=False], [save_tiff=True] and
    [incident_energy=None].  A call that gives only the first three, as the
    first call of the notebook does, fits the summed spectrum, writes no txt
    and writes tiff, with the incident energy of the parameter file; an
    [incident_energy] that is given is the energy of the fit. *)
Theorem C7_batch_entry_point :
  Batch.signature =
    [ Batch.mkParameter "working_dir" None;
      Batch.mkParameter "file_name" None;
      Batch.mkParameter "param_file_name" None;
      Batch.mkParameter "fit_channel_each" (Some (Batch.VBool false));
      Batch.mkParameter "param_channel_list" (Some Batch.VNone);
      Batch.mkParameter "save_txt" (Some (Batch.VBool false));
      Batch.mkParameter "save_tiff" (Some (Batch.VBool true));
      Batch.mkParameter "incident_energy" (Some Batch.VNone) ]
  /\ (forall working_dir file_name param_file_name file_energy,
        Batch.run file_energy
          (Batch.mkCall [working_dir; file_name; param_file_name] [])
        = Some (Batch.mkPlan Batch.Summed false true file_energy))
  /\ (forall fname file_energy,
        Batch.run file_energy (Batch.call_sum fname)
        = Some (Batch.mkPlan Batch.Summed false true file_energy))
  /\ (forall working_dir file_name param_file_name e file_energy,
        e <> Batch.VNone ->
        Batch.energy <$>
          Batch.run file_energy
            (Batch.mkCall [working_dir; file_name]
               [("param_file_name", param_file_name); ("incident_energy", e)])
        = Some e).
Proof.
  split; [reflexivity|]. split; [reflexivity|]. split; [reflexivity|].
  intros working_dir file_name param_file_name e file_energy He.
  destruct e; try reflexivity. congruence.
Qed.

(** ** The statements on concrete inputs *)

Example split_abs : OsPath.split "/data/run/scan_2468.h5" = ("/data/run", "scan_2468.h5").
Proof. reflexivity. Qed.

Example split_root : OsPath.split "/scan.h5" = ("/", "scan.h5").
Proof. reflexivity. Qed.

Example split_bare : OsPath.split "scan.h5" = ("", "scan.h5").
Proof. reflexivity. Qed.

Example split_trailing : OsPath.split "a//b/" = ("a//b", "").
Proof. reflexivity. Qed.

(** A file that loads: the events of the click, and the label. *)
Example load_h5 :
  let h := files_btn_clicked Sample.backend ["/data/run/scan_2468.h5"; "/data/other.h5"] in
  events_of h Sample.world =
    [ Called (AssignFileName "temp") Returned;
      Called (AssignFileName "scan_2468.h5") Returned;
      Called (WindowTitleSetFileName "scan_2468.h5") Returned ]
  /\ Ui.files_load_text (ui (world_after h Sample.world)) = "scan_2468.h5 is loaded."
  /\ Io.working_directory (io (world_after h Sample.world)) = "/data/run".
Proof. vm_compute. auto. Qed.

(** A file that does not: the error box and the cleared title. *)
Example load_txt :
  let h := files_btn_clicked Sample.backend ["/data/run/notes.txt"] in
  events_of h Sample.world =
    [ Called (AssignFileName "temp") Returned;
      Called (AssignFileName "notes.txt") Raised;
      Shown Critical "ERROR" (incorrect_format "/data/run/notes.txt");
      Called WindowTitleClear Returned ]
  /\ Ui.files_load_text (ui (world_after h Sample.world)) = "No data is loaded."
  /\ fit (world_after h Sample.world) = fit Sample.world.
Proof. vm_compute. auto. Qed.

(** The calls of the notebook bind, and do what it says of them. *)
Example notebook_calls :
  Batch.run (Batch.VInt 12) (Batch.call_sum "2468.h5")
    = Some (Batch.mkPlan Batch.Summed false true (Batch.VInt 12))
  /\ Batch.run (Batch.VInt 12) (Batch.call_each "2468.h5")
    = Some (Batch.mkPlan Batch.PerChannel true true (Batch.VInt 12))
  /\ Batch.run (Batch.VInt 12) Batch.call_energy
    = Some (Batch.mkPlan Batch.Summed false true (Batch.VInt 10)).
Proof. vm_compute. auto. Qed.

(** A call that leaves out [param_file_name], or names a parameter twice, is
    a [TypeError]. *)
Example bad_calls :
  Batch.run (Batch.VInt 12) (Batch.mkCall [Batch.wd; Batch.VStr "2468.h5"] []) = None
  /\ Batch.run (Batch.VInt 12)
       (Batch.mkCall [Batch.wd; Batch.VStr "2468.h5"; Batch.param_file]
                     [("param_file_name", Batch.param_file)]) = None.
Proof. vm_compute. auto. Qed.

(** The mask window as it opens, [mask_opt] 0: three buttons claim to be
    checked; after a click on the first, none. *)
Example mask_buttons_on_sample :
  Io.mask_opt (io Sample.world) = 0
  /\ checked_count (io Sample.world) = 3%nat
  /\ Io.mask_opt (io (world_after (rb_pos_clicked true) Sample.world)) = 1
  /\ checked_count (io (world_after (rb_pos_clicked true) Sample.world)) = 0%nat.
Proof. vm_compute. auto. Qed.

(** HIDE on the only channel shown hides the plot; HIDE on a channel that is
    hidden already, with another one shown, does not. *)
Example hide_on_sample :
  Plot.show_exp_opt (plot (world_after (rb_1_clicked Sample.backend "det1") Sample.world))
    = false
  /\ Plot.show_exp_opt (plot (world_after (rb_1_clicked Sample.backend "det2") Sample.world))
    = true
  /\ result_of (rb_1_clicked Sample.backend "det3") Sample.world = Exc (KeyError "det3").
Proof. vm_compute. auto. Qed.

Lemma C1_witness :
  let w' := world_after (files_btn_clicked Sample.backend ["/data/run/notes.txt"])
              Sample.world in
  plot w' = plot Sample.world /\ setting w' = setting Sample.world
  /\ fit w' = fit Sample.world.
Proof.
  exact (C1_dependent_models_after_load Sample.backend
           ["/data/run/notes.txt"] Sample.world).
Defined.

Lemma C2_witness :
  db_load_outcome Sample.backend (Sample.world_run (-5)) = Raised
  /\ shows_critical
       (events_of (load_btn_clicked Sample.backend) (Sample.world_run (-5))) = true.
Proof.
  split; [reflexivity|].
  apply (C2_failure_dialog Sample.backend [] (Sample.world_run (-5))).
  reflexivity.
Defined.

Lemma C3_witness :
  Ui.run_num_value (Sample.world_run 2468).(ui) = 2468
  /\ Ui.run_num_value
       (ui (world_after (load_btn_clicked Sample.backend) (Sample.world_run 2468))) = -1
  /\ Ui.run_num_value
       (ui (world_after (load_btn_clicked Sample.backend) (Sample.world_run (-5)))) = -1.
Proof.
  split; [reflexivity|]. split.
  - apply (C3_run_id_reset Sample.backend (Sample.world_run 2468)).
    apply (C3_run_id_reset Sample.backend (Sample.world_run 2468));
      intros; reflexivity.
  - apply (C3_run_id_reset Sample.backend (Sample.world_run (-5))).
    apply (C3_run_id_reset Sample.backend (Sample.world_run (-5)));
      intros; reflexivity.
Defined.

Lemma C5_witness :
  mask_opt_valid (io Sample.world)
  /\ mask_opt_valid
       (io (world_after (mask_view_handle Sample.backend SaveBtn) Sample.world))
  /\ mask_opt_valid
       (io (world_after (mask_view_handle Sample.backend (RbFile true)) Sample.world)).
Proof.
  split; [left; reflexivity|]. split.
  - apply (C5_mask_opt_enumerated Sample.backend SaveBtn Sample.world).
    + intros st m Hm; exact Hm.
    + left; reflexivity.
  - apply (C5_mask_opt_enumerated Sample.backend (RbFile true) Sample.world).
    + intros st m Hm; exact Hm.
    + left; reflexivity.
Defined.


Lemma C7_witness :
  Batch.VInt 10 <> Batch.VNone
  /\ Batch.energy <$> Batch.run (Batch.VInt 12) Batch.call_energy
     = Some (Batch.VInt 10).
Proof.
  split; [discriminate|].
  apply (proj2 (proj2 (proj2 C7_batch_entry_point))).
  discriminate.
Defined.


Lemma C9_witness :
  file_load_outcome Sample.backend ["/data/run/scan_2468.h5"] Sample.world
    = Some Returned
  /\ Fit.fit_img (fit Sample.world) <> ∅
  /\ (let w' := world_after (files_btn_clicked Sample.backend ["/data/run/scan_2468.h5"])
                  Sample.world in
      Fit.fit_img (fit w') = ∅ /\ Ui.folder_btn_enabled (ui w') = false)
  /\ (let w' := world_after (load_btn_clicked Sample.backend) (Sample.world_run 2468) in
      Fit.fit_img (fit w') = ∅ /\ Ui.folder_btn_enabled (ui w') = false).
Proof.
  split; [reflexivity|]. split; [discriminate|]. split.
  - apply (C9_fit_results_cleared Sample.backend
             ["/data/run/scan_2468.h5"] Sample.world).
    reflexivity.
  - apply (C9_fit_results_cleared Sample.backend [] (Sample.world_run 2468)).
    reflexivity.
Defined.



(** ** More on the load handlers *)

Section MoreLoadFacts.
Context {IoP PlotP R : Type}.
Variable B : Backend IoP PlotP.
Local Abbreviation World := (World IoP PlotP R).

(** A dialog that is cancelled changes nothing: with an empty answer the
    handlers of "Working Directory", "Load Data File" and the mask window's
    "Load" leave the world as it is, call no model code and show no box (not
    even [io_model.data_ready] is reset). *)
Theorem cancelled_dialogs_change_nothing (w : World) :
  folder_btn_clicked "" w = (w, [], Ok tt)
  /\ files_btn_clicked B [] w = (w, [], Ok tt)
  /\ mask_btn_clicked B [] w = (w, [], Ok tt).
Proof. repeat split. Qed.

(** X1. The reset of [io_model.file_name] to ['temp'] is outside the [try]:
    when it raises, the exception leaves the handler of "Load Data File", no
    box is shown, [io_model.working_directory] is not assigned, and widgets
    and dependent models stay as they were; only what the reset itself left
    in [io_model] (with [data_ready] cleared before it) differs. *)
Theorem files_btn_reset_raises (path0 : string) (others : list string) (w : World) :
  snd (assign_file_name B "temp" (store w) (Io.set_data_ready false (io w))) = Raised ->
  let reset := assign_file_name B "temp" (store w) (Io.set_data_ready false (io w)) in
  files_btn_clicked B (path0 :: others) w =
    (mkWorld (fst (fst reset)) (snd (fst reset))
             (param w) (plot w) (setting w) (fit w) (ui w),
     [Called (AssignFileName "temp") Raised],
     Exc ModelError).
Proof.
  destruct w as [st m pa pl se fi u]; unfold_handler; cbn.
  destruct (assign_file_name B "temp" st (Io.set_data_ready false m))
    as [[st1 m1] o1]; cbn.
  intros ->; reflexivity.
Qed.

(** X2. What the load raises never leaves the handler of "Load Data File":
    when the reset to ['temp'] and the window-title methods return, the
    handler returns, whether the load returned or raised. *)
Theorem files_btn_catches_load (path : list string) (w : World) :
  (forall st m, snd (assign_file_name B "temp" st m) = Returned) ->
  (forall st m, snd (window_title_clear B st m) = Returned) ->
  (forall v st m, snd (window_title_set_file_name B v st m) = Returned) ->
  result_of (files_btn_clicked B path) w = Ok tt.
Proof.
  intros Htemp Hclear Hset.
  destruct w as [st m pa pl se fi u], path as [|path0 others];
    unfold_handler; cbn; [reflexivity|].
  specialize (Htemp st (Io.set_data_ready false m)).
  destruct (assign_file_name B "temp" st (Io.set_data_ready false m))
    as [[st1 m1] o1]; cbn in *; subst; cbn.
  destruct (OsPath.split path0) as [f_dir f_name]; cbn.
  destruct (assign_file_name B f_name st1 (Io.set_working_directory f_dir m1))
    as [[st2 m2] []]; cbn.
  - specialize (Hset f_name st2 m2).
    destruct (window_title_set_file_name B f_name st2 m2) as [[st3 m3] o3];
      cbn in *; subst; cbn.
    destruct (Io.incident_energy_available m3); reflexivity.
  - specialize (Hclear st2 m2).
    destruct (window_title_clear B st2 m2) as [[st3 m3] o3];
      cbn in *; subst; reflexivity.
Qed.

(** X3. The handler of "Load Data from Database" treats the dependent models
    as the file handler does, and clears [plot_model.plot_exp_opt] as well:
    they are written only when [io_model.load_data_runid()] returned, and
    are as they were when it raised. *)
Theorem load_btn_dependent_models (w : World) :
  let w' := world_after (load_btn_clicked B) w in
  match db_load B w with
  | (_, loaded, Returned) =>
      plot w' = Plot.set_parameters (Param.param_new (param w))
                  (Plot.set_plot_exp_opt false (plot w))
      /\ setting w' = Setting.mk (Param.param_new (param w)) (Io.data_sets loaded)
      /\ fit w' = Fit.mk (Io.data_sets loaded) ∅
  | (_, _, Raised) =>
      plot w' = plot w /\ setting w' = setting w /\ fit w' = fit w
  end.
Proof.
  destruct w as [st m pa pl se fi u]; unfold_handler; cbn.
  backend_call; backend_call; easy.
Qed.

(** X4. A load that fails leaves the widgets alone: after a failed file
    load the label still names what was loaded before and "Working
    Directory" stays as it was; after a failed database load the same holds
    up to [run_num.value]. *)
Theorem failed_load_keeps_widgets (path : list string) (w : World) :
  (file_load_outcome B path w <> Some Returned ->
   ui (world_after (files_btn_clicked B path) w) = ui w)
  /\ (db_load_outcome B w = Raised ->
      let u' := ui (world_after (load_btn_clicked B) w) in
      Ui.files_load_text u' = Ui.files_load_text (ui w)
      /\ Ui.folder_btn_enabled u' = Ui.folder_btn_enabled (ui w)
      /\ Ui.set_run_num_value (-1) u' = Ui.set_run_num_value (-1) (ui w)).
Proof.
  destruct w as [st m pa pl se fi u]; split.
  - destruct path as [|path0 others]; unfold_handler; cbn; [reflexivity|].
    backend_call; [|reflexivity].
    destruct (OsPath.split path0) as [f_dir f_name]; cbn.
    backend_call; [congruence|].
    intros _. backend_call; reflexivity.
  - destruct u; unfold_handler; cbn.
    backend_call; [discriminate|].
    intros _. backend_call; auto.
Qed.

(** X5. The incident-energy warning of "Load Data File" is shown exactly
    when the load returned, the handler completed, and
    [io_model.incident_energy_available] is false in the end; a click never
    shows both the error box and the warning, and never more than one box. *)
Theorem files_btn_warning (path : list string) (w : World) :
  let h := files_btn_clicked B path in
  (shows_warning (events_of h w) = true <->
   file_load_outcome B path w = Some Returned
   /\ result_of h w = Ok tt
   /\ Io.incident_energy_available (io (world_after h w)) = false)
  /\ shows_critical (events_of h w) && shows_warning (events_of h w) = false
  /\ (length (boxes (events_of h w)) <= 1)%nat.
Proof.
  destruct w as [st m pa pl se fi u], path as [|path0 others];
    unfold_handler; cbn.
  - repeat split; try easy. lia.
  - backend_call; [|repeat split; try easy; lia].
    destruct (OsPath.split path0) as [f_dir f_name]; cbn.
    backend_call.
    + backend_call.
      * destruct (Io.incident_energy_available _) eqn:He; cbn;
          repeat split; try easy; try lia.
        intros (_ & _ & H). rewrite He in H. discriminate.
      * repeat split; try easy. lia.
    + backend_call; repeat split; try easy; lia.
Qed.

Lemma load_btn_leaves_sentinel (w : World) :
  result_of (load_btn_clicked B) w = Ok tt ->
  Ui.run_num_value (ui (world_after (load_btn_clicked B) w)) = -1.
Proof.
  destruct w as [st m pa pl se fi u], u; unfold_handler; cbn.
  backend_call; backend_call; cbn; intros H; solve [reflexivity | discriminate H].
Qed.

(** X6. A completed click on "Load Data from Database" leaves
    [run_num.value] at -1, so a second click without typing a scan id
    attempts the load with [io_model.runid] -1 (and [data_ready] cleared). *)
Theorem load_btn_second_click (w : World) :
  result_of (load_btn_clicked B) w = Ok tt ->
  let w1 := world_after (load_btn_clicked B) w in
  db_load B w1 =
    load_data_runid B (store w1) (Io.set_data_ready false (Io.set_runid (-1) (io w1))).
Proof.
  intros Hok.
  pose proof (load_btn_leaves_sentinel w Hok) as Hrun.
  cbn zeta.
  set (w1 := world_after (load_btn_clicked B) w) in *.
  destruct w1 as [st m pa pl se fi u].
  unfold db_load, world_after, load_btn_prepare, assign, mbind, M_bind; cbn in *.
  rewrite Hrun. reflexivity.
Qed.

End MoreLoadFacts.

(** ** More on the channel buttons *)

Section MoreChannelFacts.
Context {IoP PlotP R : Type}.
Variable B : Backend IoP PlotP.
Local Abbreviation World := (World IoP PlotP R).


(** X7. The loop of HIDE counts the channels that are shown, each as often
    as it is listed, and starts from [n_plots]; it stops with [KeyError] at
    the first channel that has no data set.  It writes nothing. *)
Theorem count_plots_counts (channels : list string) (n : Z) (w : World) :
  let d := dict_at (store w) (Io.data_sets (io w)) in
  count_plots channels n w =
    (w, [], match first_missing d channels with
            | None => Ok (n + count_shown d channels)
            | Some v => Exc (KeyError v)
            end).
Proof.
  cbn zeta. revert n.
  induction channels as [|v rest IH]; intros n.
  - cbn. unfold mret, M_ret, count_shown; cbn. now rewrite Z.add_0_r.
  - cbn [count_plots first_missing List.find].
    unfold data_set_of, get, raise, mbind, M_bind, mret, M_ret; cbn.
    unfold count_shown, shown_in at 1; cbn [List.filter].
    destruct (dict_at (store w) (Io.data_sets (io w)) !! v) as [ds|] eqn:Hv;
      cbn; [|reflexivity].
    rewrite IH. unfold first_missing, count_shown.
    destruct (List.find _ rest); cbn; [reflexivity|].
    destruct (nonzero (plot_index ds)); cbn [length]; fold (shown_in (dict_at (store w) (Io.data_sets (io w))));
      [rewrite Nat2Z.inj_succ; do 2 f_equal; lia | reflexivity].
Qed.

(** X8. HIDE and SHOW on a channel without a data set raise [KeyError]
    before anything is written or plotted. *)
Theorem rb_clicked_without_data_set (loop_item : string) (w : World) :
  plot_index_at w loop_item = None ->
  rb_1_clicked B loop_item w = (w, [], Exc (KeyError loop_item))
  /\ rb_2_clicked B loop_item w = (w, [], Exc (KeyError loop_item)).
Proof.
  intros Hnone. destruct w as [st m pa pl se fi u].
  unfold plot_index_at in Hnone; cbn in Hnone.
  unfold rb_1_clicked, rb_2_clicked, rb_replot, assign_plot_index, data_set_of,
    get, raise, mbind, M_bind, mret, M_ret; cbn.
  destruct (dict_at st (Io.data_sets m) !! loop_item); [discriminate|].
  split; reflexivity.
Qed.

(** What a click on HIDE ([v] 0) or SHOW ([v] 1) leaves, up to
    [plot_model], when the plotting code leaves the data sets alone. *)
Lemma rb_clicked_world (loop_item : string) (ds : DataSet) (w : World) :
  dict_at (store w) (Io.data_sets (io w)) !! loop_item = Some ds ->
  (forall st pm, fst (fst (plot_multi_exp_data B st pm)) = st) ->
  let left v pm :=
    mkWorld (store_set (Io.data_sets (io w)) loop_item (set_plot_index v ds) (store w))
            (io w) (param w) pm (setting w) (fit w) (ui w) in
  (exists pm, world_after (rb_1_clicked B loop_item) w = left 0 pm)
  /\ (exists pm, world_after (rb_2_clicked B loop_item) w = left 1 pm).
Proof.
  intros Hds Hframe. destruct w as [st m pa pl se fi u]; cbn in Hds.
  cbn zeta.
  unfold world_after, rb_1_clicked, rb_2_clicked, rb_replot, assign_plot_index,
    data_set_of, call_plot, assign, get, raise, of_outcome,
    mbind, M_bind, mret, M_ret; cbn.
  rewrite Hds; cbn.
  split.
  - match goal with
    | |- context [plot_multi_exp_data B ?s ?x] =>
        pose proof (Hframe s x) as Hf;
        destruct (plot_multi_exp_data B s x) as [[st' pm] o]
    end.
    cbn in Hf; subst st'. destruct o; cbn; [|eexists; reflexivity].
    match goal with
    | |- context [count_plots ?chs ?n ?w0] => rewrite (count_plots_counts chs n w0)
    end.
    cbn. destruct (first_missing _ _); cbn; [eexists; reflexivity|].
    destruct (negb _); cbn; eexists; reflexivity.
  - match goal with
    | |- context [plot_multi_exp_data B ?s ?x] =>
        pose proof (Hframe s x) as Hf;
        destruct (plot_multi_exp_data B s x) as [[st' pm] o]
    end.
    cbn in Hf; subst st'. destruct o; cbn; eexists; reflexivity.
Qed.


(** X10. When the plotting code raises, the exception leaves HIDE and SHOW:
    [plot_index] is written already, but [plot_model.show_exp_opt] is not
    assigned, and HIDE does not count the channels. *)
Theorem rb_clicked_plot_raises (loop_item : string) (w : World) :
  is_Some (plot_index_at w loop_item) ->
  (forall st pm, snd (plot_multi_exp_data B st pm) = Raised) ->
  rb_1_clicked B loop_item w = rb_replot B loop_item 0 w
  /\ rb_2_clicked B loop_item w = rb_replot B loop_item 1 w
  /\ result_of (rb_1_clicked B loop_item) w = Exc ModelError
  /\ result_of (rb_2_clicked B loop_item) w = Exc ModelError
  /\ events_of (rb_1_clicked B loop_item) w = [Called PlotMultiExpData Raised]
  /\ events_of (rb_2_clicked B loop_item) w = [Called PlotMultiExpData Raised].
Proof.
  intros [z Hz] Hraise. unfold plot_index_at in Hz.
  destruct w as [st m pa pl se fi u]; cbn in Hz.
  destruct (dict_at st (Io.data_sets m) !! loop_item) as [ds|] eqn:Hds;
    [|discriminate].
  unfold result_of, events_of, rb_1_clicked, rb_2_clicked, rb_replot,
    assign_plot_index, data_set_of, call_plot, assign, get, raise, of_outcome,
    mbind, M_bind, mret, M_ret; cbn.
  rewrite Hds; cbn.
  repeat match goal with
  | |- context [plot_multi_exp_data B ?s ?x] =>
      let H := fresh "H" in
      pose proof (Hraise s x) as H;
      destruct (plot_multi_exp_data B s x) as [[? ?] ?]; cbn in H; subst
  end.
  cbn. repeat split.
Qed.

(** X11. After SHOW on a channel of [io_model.file_channel_list] the plot
    is shown and not every channel is hidden (for plotting code that
    returns and leaves the data sets alone). *)
Theorem show_makes_visible (loop_item : string) (w : World) :
  is_Some (plot_index_at w loop_item) ->
  In loop_item (Io.file_channel_list (io w)) ->
  (forall st pm, fst (fst (plot_multi_exp_data B st pm)) = st) ->
  (forall st pm, snd (plot_multi_exp_data B st pm) = Returned) ->
  let show := world_after (rb_2_clicked B loop_item) w in
  result_of (rb_2_clicked B loop_item) w = Ok tt
  /\ Plot.show_exp_opt (plot show) = true
  /\ all_hidden show = false.
Proof.
  intros [z Hz] Hin Hframe Hret. unfold plot_index_at in Hz.
  destruct (dict_at (store w) (Io.data_sets (io w)) !! loop_item) as [ds|] eqn:Hds;
    [|discriminate].
  cbn zeta.
  assert (Hhid : all_hidden (world_after (rb_2_clicked B loop_item) w) = false).
  { destruct (rb_clicked_world loop_item ds w Hds Hframe) as [_ [pm1 ->]].
    unfold all_hidden; cbn.
    destruct (forallb _ _) eqn:Hall; [|reflexivity].
    rewrite forallb_forall in Hall. specialize (Hall loop_item Hin).
    unfold hidden, plot_index_at in Hall; cbn in Hall.
    rewrite dict_at_store_set in Hall. discriminate. }
  split; [|split; [|exact Hhid]].
  - destruct w as [st m pa pl se fi u]; cbn in Hds.
    unfold result_of, rb_2_clicked, rb_replot, assign_plot_index, data_set_of,
      call_plot, assign, get, raise, of_outcome, mbind, M_bind, mret, M_ret; cbn.
    rewrite Hds; cbn.
    match goal with
    | |- context [plot_multi_exp_data B ?s ?x] =>
        pose proof (Hret s x) as Hr;
        destruct (plot_multi_exp_data B s x) as [[? ?] ?]; cbn in Hr; subst
    end.
    reflexivity.
  - destruct w as [st m pa pl se fi u]; cbn in Hds.
    unfold world_after, rb_2_clicked, rb_replot, assign_plot_index, data_set_of,
      call_plot, assign, get, raise, of_outcome, mbind, M_bind, mret, M_ret; cbn.
    rewrite Hds; cbn.
    match goal with
    | |- context [plot_multi_exp_data B ?s ?x] =>
        pose proof (Hret s x) as Hr;
        destruct (plot_multi_exp_data B s x) as [[? pm] ?]; cbn in Hr; subst
    end.
    cbn. destruct pm; reflexivity.
Qed.


End MoreChannelFacts.

(** ** More on the check box and the mask window *)

Section MoreViewFacts.
Context {IoP PlotP R : Type}.
Variable B : Backend IoP PlotP.
Local Abbreviation World := (World IoP PlotP R).




(** X15. "Save" closes the mask window only when [io_model.apply_mask()]
    returned; when it raises, the exception leaves the handler and the
    window stays as it was. *)
Theorem save_btn_closes_on_success (w : World) :
  let h := save_btn_clicked B in
  match snd (apply_mask B (store w) (io w)) with
  | Returned =>
      result_of h w = Ok tt
      /\ ui (world_after h w) = Ui.set_mask_view_visible false (ui w)
  | Raised =>
      result_of h w = Exc ModelError /\ ui (world_after h w) = ui w
  end
  /\ events_of h w = [Called ApplyMask (snd (apply_mask B (store w) (io w)))].
Proof.
  destruct w as [st m pa pl se fi u]; cbn zeta.
  unfold world_after, events_of, result_of, save_btn_clicked, call_io, assign,
    of_outcome, mbind, M_bind; cbn.
  destruct (apply_mask B st m) as [[st' m'] []]; cbn; auto.
Qed.

Lemma mask_event_mode (e : mask_event) (w : World) :
  (forall st m, Io.mask_opt (snd (fst (apply_mask B st m))) = Io.mask_opt m) ->
  Io.mask_opt (io (world_after (mask_view_handle B e) w))
    = default (Io.mask_opt (io w)) (mode_of e).
Proof.
  intros Hmask. destruct w as [st m pa pl se fi u].
  destruct e as [[]|[]|[]|path| |v|v|v|v]; cbn;
    try (destruct m; reflexivity).
  - unfold world_after, mask_btn_clicked, first_base_name, assign, pass, raise,
      mbind, M_bind, mret, M_ret.
    destruct path as [|p0 ps]; cbn; [reflexivity|]. destruct m; reflexivity.
  - unfold world_after, save_btn_clicked, call_io, assign, of_outcome,
      mbind, M_bind; cbn.
    specialize (Hmask st m).
    destruct (apply_mask B st m) as [[st' m'] []]; cbn in *; exact Hmask.
Qed.

(** X16. In the mask window the last radio button clicked decides: after
    any run of events, [io_model.mask_opt] is the mode of the last click
    that checked a radio button, or what it was when there is none; loading
    a mask file, editing the positions and saving do not change it (for an
    [apply_mask] that leaves [mask_opt] alone). *)
Theorem mask_opt_is_last_mode (events : list mask_event) (w : World) :
  (forall st m, Io.mask_opt (snd (fst (apply_mask B st m))) = Io.mask_opt m) ->
  Io.mask_opt (io (mask_view_run B events w)) = last_mode events (Io.mask_opt (io w)).
Proof.
  intros Hmask. revert w.
  induction events as [|e rest IH]; intros w; [reflexivity|].
  unfold mask_view_run, last_mode in *; cbn [fold_left].
  rewrite IH. now rewrite mask_event_mode.
Qed.

End MoreViewFacts.

(** ** Paths *)

Section PathFacts.
Context {IoP PlotP R : Type}.
Variable B : Backend IoP PlotP.
Local Abbreviation World := (World IoP PlotP R).

Lemma append_empty (t : string) : EmptyString +:+ t = t.
Proof. reflexivity. Qed.

Lemma append_String (a : ascii) (s t : string) :
  String a s +:+ t = String a (s +:+ t).
Proof. reflexivity. Qed.

Lemma rpartition_without (c : ascii) (s : string) :
  has_char c s = false -> Str.rpartition c s = (EmptyString, s).
Proof.
  induction s as [|a rest IH]; cbn; [reflexivity|].
  intros H. apply orb_false_elim in H as [Ha Hrest].
  rewrite (IH Hrest), Ha. reflexivity.
Qed.

Lemma rpartition_tail_free (c : ascii) (s : string) :
  has_char c (snd (Str.rpartition c s)) = false.
Proof.
  induction s as [|a rest IH]; cbn; [reflexivity|].
  destruct (Str.rpartition c rest) as [h t]; cbn in *.
  destruct h; [|exact IH].
  destruct (Ascii.eqb a c) eqn:Ha; cbn; [exact IH|].
  now rewrite Ha, IH.
Qed.

Lemma rpartition_append (c : ascii) (s : string) :
  fst (Str.rpartition c s) +:+ snd (Str.rpartition c s) = s.
Proof.
  induction s as [|a rest IH]; cbn; [reflexivity|].
  destruct (Str.rpartition c rest) as [h t]; cbn in *.
  destruct h.
  - rewrite append_empty in IH.
    destruct (Ascii.eqb a c); cbn;
      rewrite ?append_String, ?append_empty; congruence.
  - cbn. rewrite append_String. congruence.
Qed.

Lemma rpartition_join (c : ascii) (d name : string) :
  has_char c name = false ->
  Str.rpartition c (d +:+ String c name) = (d +:+ String c EmptyString, name).
Proof.
  intros Hname. induction d as [|a d' IH].
  - rewrite !append_empty. cbn.
    rewrite (rpartition_without c name Hname), Ascii.eqb_refl. reflexivity.
  - rewrite !append_String. cbn. rewrite IH.
    destruct d'; rewrite ?append_String, ?append_empty; reflexivity.
Qed.

Lemma all_char_rstrip (c : ascii) (s : string) :
  Str.all_char c s = true -> Str.rstrip c s = EmptyString.
Proof.
  induction s as [|a rest IH]; cbn; [reflexivity|].
  intros H. apply andb_prop in H as [Ha Hrest].
  now rewrite (IH Hrest), Ha.
Qed.

Lemma rstrip_append_sep (c : ascii) (d : string) :
  Str.rstrip c (d +:+ String c EmptyString) = Str.rstrip c d.
Proof.
  induction d as [|a d' IH].
  - rewrite append_empty. cbn. now rewrite Ascii.eqb_refl.
  - rewrite append_String. cbn. now rewrite IH.
Qed.

Lemma all_char_append_sep (c : ascii) (d : string) :
  Str.all_char c (d +:+ String c EmptyString) = Str.all_char c d.
Proof.
  induction d as [|a d' IH].
  - rewrite append_empty. cbn. now rewrite Ascii.eqb_refl.
  - rewrite append_String. cbn. now rewrite IH.
Qed.

Lemma split_join (dir name : string) :
  has_char OsPath.sep name = false ->
  dir <> EmptyString ->
  Str.rstrip OsPath.sep dir = dir ->
  OsPath.split (dir +:+ String OsPath.sep name) = (dir, name).
Proof.
  intros Hname Hdir Hstrip. unfold OsPath.split.
  rewrite (rpartition_join _ dir name Hname).
  rewrite all_char_append_sep, rstrip_append_sep, Hstrip.
  destruct (Str.all_char OsPath.sep dir) eqn:Hall.
  - apply all_char_rstrip in Hall. congruence.
  - destruct dir; [congruence|]. reflexivity.
Qed.

Lemma split_bare_name (name : string) :
  has_char OsPath.sep name = false -> OsPath.split name = (EmptyString, name).
Proof.
  intros Hname. unfold OsPath.split.
  now rewrite (rpartition_without _ name Hname).
Qed.

(** X17. How "Load Data File" reads the selected path: for a directory
    without a trailing slash and a name without a slash, [dir/name] is
    loaded as file [name] with [io_model.working_directory] set to [dir];
    a bare [name] is loaded with [io_model.working_directory] set to the
    empty string (when the reset to ['temp'] returns). *)
Theorem files_btn_splits_path (dir name : string) (others : list string) (w : World) :
  snd (assign_file_name B "temp" (store w) (Io.set_data_ready false (io w))) = Returned ->
  has_char OsPath.sep name = false ->
  (dir <> EmptyString -> Str.rstrip OsPath.sep dir = dir ->
   exists w1,
     file_load_attempt B ((dir +:+ String OsPath.sep name) :: others) w = Some (w1, name)
     /\ Io.working_directory (io w1) = dir)
  /\ (exists w1,
        file_load_attempt B (name :: others) w = Some (w1, name)
        /\ Io.working_directory (io w1) = EmptyString).
Proof.
  intros Hreset Hname.
  destruct w as [st m pa pl se fi u].
  unfold file_load_attempt, files_btn_prepare, call_io, assign, of_outcome,
    mbind, M_bind, mret, M_ret; cbn in *.
  destruct (assign_file_name B "temp" st (Io.set_data_ready false m))
    as [[st1 m1] o1]; cbn in *; subst o1; cbn.
  split.
  - intros Hdir Hstrip. rewrite (split_join dir name Hname Hdir Hstrip); cbn.
    eexists. split; [reflexivity|]. destruct m1; reflexivity.
  - rewrite (split_bare_name name Hname); cbn.
    eexists. split; [reflexivity|]. destruct m1; reflexivity.
Qed.

(** X18. The mask window's "Load" keeps the last field of the first
    selected path, whatever else was selected: [io_model.mask_name] and the
    label get the same name, the name contains no separator, and the path
    ends with it; nothing else of [io_model] changes. *)
Theorem mask_btn_keeps_base_name (path0 : string) (others : list string) (w : World) :
  let name := Str.last_field (sep_v B) path0 in
  let w' := world_after (mask_btn_clicked B (path0 :: others)) w in
  mask_btn_clicked B (path0 :: others) w = mask_btn_clicked B [path0] w
  /\ io w' = Io.set_mask_name name (io w)
  /\ ui w' = Ui.set_mask_load_note_text name (ui w)
  /\ has_char (sep_v B) name = false
  /\ exists prefix, path0 = prefix +:+ name.
Proof.
  cbn zeta. destruct w as [st m pa pl se fi u].
  split; [reflexivity|]. split; [reflexivity|]. split; [reflexivity|].
  unfold Str.last_field. split.
  - apply rpartition_tail_free.
  - exists (fst (Str.rpartition (sep_v B) path0)).
    symmetry. apply rpartition_append.
Qed.

End PathFacts.

(** ** The further statements on concrete inputs *)

Lemma files_btn_reset_raises_witness :
  snd (assign_file_name Faulty.locked "temp" (store Sample.world)
         (Io.set_data_ready false (io Sample.world))) = Raised
  /\ events_of (files_btn_clicked Faulty.locked ["/data/run/scan_2468.h5"]) Sample.world
     = [Called (AssignFileName "temp") Raised]
  /\ result_of (files_btn_clicked Faulty.locked ["/data/run/scan_2468.h5"]) Sample.world
     = Exc ModelError.
Proof.
  split; [reflexivity|].
  unfold events_of, result_of.
  rewrite (files_btn_reset_raises Faulty.locked "/data/run/scan_2468.h5" []
             Sample.world eq_refl).
  split; reflexivity.
Defined.

Lemma files_btn_catches_load_witness :
  file_load_outcome Sample.backend ["/data/run/notes.txt"] Sample.world = Some Raised
  /\ result_of (files_btn_clicked Sample.backend ["/data/run/notes.txt"]) Sample.world
     = Ok tt.
Proof.
  split; [reflexivity|].
  apply (files_btn_catches_load Sample.backend ["/data/run/notes.txt"] Sample.world).
  - intros st m; reflexivity.
  - intros st m; reflexivity.
  - intros v st m; reflexivity.
Defined.

Lemma failed_load_keeps_widgets_witness :
  file_load_outcome Sample.backend ["/data/run/notes.txt"] Sample.world <> Some Returned
  /\ ui (world_after (files_btn_clicked Sample.backend ["/data/run/notes.txt"])
           Sample.world) = ui Sample.world
  /\ db_load_outcome Faulty.backend (Sample.world_run 2468) = Raised
  /\ Ui.files_load_text
       (ui (world_after (load_btn_clicked Faulty.backend) (Sample.world_run 2468)))
     = "No data is loaded.".
Proof.
  assert (Hfailed : file_load_outcome Sample.backend ["/data/run/notes.txt"]
                      Sample.world <> Some Returned) by discriminate.
  split; [exact Hfailed|]. split.
  - exact (proj1 (failed_load_keeps_widgets Sample.backend ["/data/run/notes.txt"]
                    Sample.world) Hfailed).
  - split; [reflexivity|].
    exact (proj1 (proj2 (failed_load_keeps_widgets Faulty.backend []
                           (Sample.world_run 2468)) eq_refl)).
Defined.

Lemma load_btn_second_click_witness :
  result_of (load_btn_clicked Sample.backend) (Sample.world_run 2468) = Ok tt
  /\ db_load_outcome Sample.backend
       (world_after (load_btn_clicked Sample.backend) (Sample.world_run 2468)) = Raised.
Proof.
  split; [reflexivity|].
  unfold db_load_outcome.
  rewrite (load_btn_second_click Sample.backend (Sample.world_run 2468) eq_refl).
  reflexivity.
Defined.

Lemma rb_clicked_without_data_set_witness :
  plot_index_at Sample.world "det3" = None
  /\ rb_1_clicked Sample.backend "det3" Sample.world
     = (Sample.world, [], Exc (KeyError "det3")).
Proof.
  split; [reflexivity|].
  apply (rb_clicked_without_data_set Sample.backend "det3" Sample.world).
  reflexivity.
Defined.


Lemma rb_clicked_plot_raises_witness :
  plot_index_at Sample.world "det2" = Some 0
  /\ result_of (rb_2_clicked Faulty.backend "det2") Sample.world = Exc ModelError
  /\ Plot.show_exp_opt
       (plot (world_after (rb_1_clicked Faulty.backend "det1") Sample.world)) = true.
Proof.
  split; [reflexivity|]. split.
  - apply (rb_clicked_plot_raises Faulty.backend "det2" Sample.world).
    + exists 0; reflexivity.
    + intros st pm; reflexivity.
  - unfold world_after.
    rewrite (proj1 (rb_clicked_plot_raises Faulty.backend "det1" Sample.world
                      (ex_intro _ 1 eq_refl) (fun st pm => eq_refl))).
    reflexivity.
Defined.

Lemma show_makes_visible_witness :
  all_hidden (world_after (rb_1_clicked Sample.backend "det1") Sample.world) = true
  /\ let hidden_world := world_after (rb_1_clicked Sample.backend "det1") Sample.world in
     Plot.show_exp_opt (plot hidden_world) = false
     /\ Plot.show_exp_opt
          (plot (world_after (rb_2_clicked Sample.backend "det2") hidden_world)) = true
     /\ all_hidden (world_after (rb_2_clicked Sample.backend "det2") hidden_world) = false.
Proof.
  split; [reflexivity|]. cbn zeta. split; [reflexivity|].
  apply (show_makes_visible Sample.backend "det2"
           (world_after (rb_1_clicked Sample.backend "det1") Sample.world)).
  - exists 0; reflexivity.
  - right; left; reflexivity.
  - intros st pm; reflexivity.
  - intros st pm; reflexivity.
Defined.



Lemma mask_opt_is_last_mode_witness :
  Io.mask_opt
    (io (mask_view_run Sample.backend
           [RbPos true; R1f 3; RbFile true; MaskBtn ["/data/mask.npy"]; RbNomask false;
            SaveBtn]
           Sample.world)) = 2.
Proof.
  rewrite (mask_opt_is_last_mode Sample.backend _ Sample.world
             (fun st m => eq_refl)).
  reflexivity.
Defined.

Lemma files_btn_splits_path_witness :
  Str.rstrip OsPath.sep "/data/run" = "/data/run"
  /\ has_char OsPath.sep "scan_2468.h5" = false
  /\ (exists w1,
        file_load_attempt Sample.backend ["/data/run/scan_2468.h5"] Sample.world
          = Some (w1, "scan_2468.h5")
        /\ Io.working_directory (io w1) = "/data/run")
  /\ (exists w1,
        file_load_attempt Sample.backend ["scan_2468.h5"] Sample.world
          = Some (w1, "scan_2468.h5")
        /\ Io.working_directory (io w1) = "").
Proof.
  split; [reflexivity|]. split; [reflexivity|].
  destruct (files_btn_splits_path Sample.backend "/data/run" "scan_2468.h5" []
              Sample.world eq_refl eq_refl) as [Hjoin Hbare].
  split; [|exact Hbare].
  apply Hjoin; [discriminate|reflexivity].
Defined.

(** ** The reset to ['temp'] *)

Section ReloadFacts.
Context {IoP PlotP R : Type}.
Variable B : Backend IoP PlotP.
Variable observer : Store -> Io.t IoP -> Store * Io.t IoP * outcome.
Local Abbreviation World := (World IoP PlotP R).

Lemma with_file_name_same (m : Io.t IoP) :
  Atom.with_file_name (Io.file_name m) m = m.
Proof. destruct m; reflexivity. Qed.

Lemma file_name_with_file_name (v : string) (m : Io.t IoP) :
  Io.file_name (Atom.with_file_name v m) = v.
Proof. destruct m; reflexivity. Qed.

(** The reset, for an observer that returns at once on ['temp']. *)
Lemma reset_to_temp (st : Store) (m : Io.t IoP) :
  (forall st m, Io.file_name m = "temp" -> observer st m = (st, m, Returned)) ->
  Atom.assign_observed observer "temp" st m
    = (st, Atom.with_file_name "temp" m, Returned).
Proof.
  intros Htemp. unfold Atom.assign_observed.
  destruct (String.eqb_spec "temp" (Io.file_name m)) as [Heq|Hne].
  - rewrite Heq. now rewrite with_file_name_same.
  - apply Htemp. apply file_name_with_file_name.
Qed.

(** X19. With [file_name] an observed member whose observer returns at
    once on ['temp'], every selection of a file not named [temp] reaches
    the observer with [file_name] set to the selected name, also when that
    is the name [io_model.file_name] has before the click: the reset to
    ['temp'] makes the second assignment a change. *)
Theorem reset_makes_reload (path0 : string) (others : list string) (w : World) :
  (forall st m, Io.file_name m = "temp" -> observer st m = (st, m, Returned)) ->
  snd (OsPath.split path0) <> "temp" ->
  file_load (Atom.backend observer B) (path0 :: others) w =
    Some (observer (store w)
            (Atom.with_file_name (snd (OsPath.split path0))
               (Io.set_working_directory (fst (OsPath.split path0))
                  (Atom.with_file_name "temp" (Io.set_data_ready false (io w)))))).
Proof.
  intros Htemp Hname. destruct w as [st m pa pl se fi u].
  unfold file_load, file_load_attempt, files_btn_prepare, call_io, assign,
    of_outcome, mbind, M_bind, mret, M_ret; cbn.
  rewrite (reset_to_temp st _ Htemp); cbn.
  destruct (OsPath.split path0) as [f_dir f_name]; cbn in *.
  unfold Atom.assign_observed.
  replace (Io.file_name (Io.set_working_directory f_dir
             (Atom.with_file_name "temp" (Io.set_data_ready false m))))
    with "temp" by (destruct m; reflexivity).
  destruct (String.eqb_spec f_name "temp") as [Heq|Hne]; [congruence|].
  reflexivity.
Qed.

(** X20. With the same kind of member, a selected file whose name is
    [temp] is never handed to the observer as a change: the second
    assignment changes nothing and returns, and the handler reports
    "temp is loaded." and clears the fit results. *)
Theorem file_named_temp (path0 : string) (others : list string) (w : World) :
  (forall st m, Io.file_name m = "temp" -> observer st m = (st, m, Returned)) ->
  snd (OsPath.split path0) = "temp" ->
  let h := files_btn_clicked (Atom.backend observer B) (path0 :: others) in
  file_load (Atom.backend observer B) (path0 :: others) w =
    Some (store w,
          Io.set_working_directory (fst (OsPath.split path0))
            (Atom.with_file_name "temp" (Io.set_data_ready false (io w))),
          Returned)
  /\ Ui.files_load_text (ui (world_after h w)) = "temp is loaded."
  /\ Fit.fit_img (fit (world_after h w)) = ∅.
Proof.
  intros Htemp Hname. destruct w as [st m pa pl se fi u]. cbn zeta.
  unfold world_after, file_load, file_load_attempt, files_btn_clicked,
    files_btn_prepare, files_btn_try, update_dependent_models, try_except_else,
    call_io, assign, show, get, pass, of_outcome, mbind, M_bind, mret, M_ret; cbn.
  rewrite (reset_to_temp st _ Htemp); cbn.
  destruct (OsPath.split path0) as [f_dir f_name]; cbn in *. subst f_name.
  unfold Atom.assign_observed.
  replace (Io.file_name (Io.set_working_directory f_dir
             (Atom.with_file_name "temp" (Io.set_data_ready false m))))
    with "temp" by (destruct m; reflexivity).
  cbn. split; [reflexivity|].
  destruct (window_title_set_file_name B "temp" st _) as [[st3 m3] []]; cbn;
    try destruct (Io.incident_energy_available m3); cbn;
    destruct u, m; cbn; auto.
Qed.

End ReloadFacts.

Lemma reset_makes_reload_witness :
  Io.file_name (io Sample.world) = "scan_2467.h5"
  /\ file_load (Atom.backend Atom.h5_observer Sample.backend)
       ["/data/scan_2467.h5"] Sample.world
     = Some (Atom.h5_observer (store Sample.world)
               (Atom.with_file_name "scan_2467.h5"
                  (Io.set_working_directory "/data"
                     (Atom.with_file_name "temp"
                        (Io.set_data_ready false (io Sample.world)))))).
Proof.
  split; [reflexivity|].
  apply (reset_makes_reload Sample.backend Atom.h5_observer "/data/scan_2467.h5" []
           Sample.world).
  - intros st m Hm. unfold Atom.h5_observer. now rewrite Hm.
  - discriminate.
Defined.

Lemma file_named_temp_witness :
  snd (OsPath.split "/data/temp") = "temp"
  /\ Ui.files_load_text
       (ui (world_after
              (files_btn_clicked (Atom.backend Atom.h5_observer Sample.backend)
                 ["/data/temp"]) Sample.world)) = "temp is loaded.".
Proof.
  split; [reflexivity|].
  apply (file_named_temp Sample.backend Atom.h5_observer "/data/temp" [] Sample.world).
  - intros st m Hm. unfold Atom.h5_observer. now rewrite Hm.
  - reflexivity.
Defined.
